(** * Pending-on-Doctors report: a shallow embedding of [app.py]

    The script is one linear pipeline, run once per uploaded sheet:

      read_excel -> strip the header labels -> keep the "in progress" rows
      -> to_datetime -> days since the last update -> keep three columns
      -> sort_values -> groupby/agg (summary) -> generate_pdf.

    Every step is a function on an in-memory table, so the embedding is a
    pure function in an error monad.  What the script reads from its
    environment is made an argument: the wall clock ([datetime.today()]),
    the threshold widget ([pending_threshold]) and the uploaded sheet.

    Scope of the data model.
    - Strings are byte strings (UTF-8, as Rocq reads its literals).
      [str.lower] is modelled on the ASCII range, which is where it can
      change whether a status equals "in progress": no character outside
      ASCII lower-cases to one of the letters of that text.  [str.strip]
      trims every character Python counts as whitespace, ASCII or not.
      Byte order on UTF-8 agrees with Python's code point order.
    - A status, doctor or claim id cell is text (an id may also be a
      number) or blank; [None] is the blank cell, pandas' NaN.
    - A [last_updated_at] cell is blank, a spreadsheet date-time, or text
      that pandas' date parser must read; that parser is not part of the
      repository and is a parameter of the development.  Instants are
      naive (no time zone), counted in nanoseconds as pandas does.
    - Header labels are text and, once trimmed, distinct: a label names at
      most one column.
    - The page layout done by reportlab ([pdf.build]) is not modelled: the
      document is the [story], the list of flowables handed to it.  Whether
      reportlab accepts the markup of a paragraph (a doctor name that holds
      a tag-like text) is part of what is not modelled: [generate_pdf] says
      which story the script builds, not that reportlab renders it. *)

From Stdlib Require Import List String Ascii ZArith Bool Lia Arith.
From Stdlib Require Import Sorting.Sorted Sorting.Permutation.
From Stdlib Require Import DecimalString OrdersEx RelationClasses.
Import ListNotations.
Local Open Scope string_scope.
Local Open Scope Z_scope.

(** ** Python string operations used by the script *)

Module PyStr.

(** [str.lower], on the ASCII letters. *)
Definition lower_char (c : ascii) : ascii :=
  let n := nat_of_ascii c in
  if ((65 <=? n) && (n <=? 90))%nat then ascii_of_nat (n + 32) else c.

Fixpoint lower (s : string) : string :=
  match s with
  | EmptyString => EmptyString
  | String c s' => String (lower_char c) (lower s')
  end.

(** [str.isspace], read off the UTF-8 bytes of a character.  Python counts
    as whitespace the code points 0x09-0x0D, 0x1C-0x1F, 0x20, 0x85, 0xA0,
    0x1680, 0x2000-0x200A, 0x2028, 0x2029, 0x202F, 0x205F and 0x3000.
    [isspace] is the test on a one-byte character, [isspace2] and [isspace3]
    the tests on the bytes of a two-byte and of a three-byte character. *)
Definition isspace (c : ascii) : bool :=
  let n := nat_of_ascii c in
  (((9 <=? n) && (n <=? 13)) || ((28 <=? n) && (n <=? 32)))%nat.

Definition isspace2 (c d : ascii) : bool :=
  let c := N_of_ascii c in
  let d := N_of_ascii d in
  ((c =? 194) && ((d =? 133) || (d =? 160)))%N.

Definition isspace3 (c d e : ascii) : bool :=
  let c := N_of_ascii c in
  let d := N_of_ascii d in
  let e := N_of_ascii e in
  (((c =? 225) && (d =? 154) && (e =? 128))
   || ((c =? 226) && (d =? 128)
       && (((128 <=? e) && (e <=? 138))
           || (e =? 168) || (e =? 169) || (e =? 175)))
   || ((c =? 226) && (d =? 129) && (e =? 159))
   || ((c =? 227) && (d =? 128) && (e =? 128)))%N.

(** The bytes left once the whitespace characters at the head are taken
    off, for given tests on one, two and three bytes. *)
Fixpoint strip_head (sp1 : ascii -> bool) (sp2 : ascii -> ascii -> bool)
    (sp3 : ascii -> ascii -> ascii -> bool) (l : list ascii) {struct l}
    : list ascii :=
  match l with
  | [] => []
  | c :: l1 =>
      if sp1 c then strip_head sp1 sp2 sp3 l1
      else
        match l1 with
        | [] => l
        | d :: l2 =>
            if sp2 c d then strip_head sp1 sp2 sp3 l2
            else
              match l2 with
              | [] => l
              | e :: l3 =>
                  if sp3 c d e then strip_head sp1 sp2 sp3 l3 else l
              end
        end
  end.

(** [str.lstrip()]: leading whitespace off. *)
Definition lstrip_bytes (l : list ascii) : list ascii :=
  strip_head isspace isspace2 isspace3 l.

(** [str.rstrip()]: trailing whitespace off; the bytes are read from the
    end, so the tests take them in reverse. *)
Definition rstrip_bytes (l : list ascii) : list ascii :=
  rev (strip_head isspace (fun c d => isspace2 d c)
                  (fun c d e => isspace3 e d c) (rev l)).

Definition lstrip (s : string) : string :=
  string_of_list_ascii (lstrip_bytes (list_ascii_of_string s)).

Definition rstrip (s : string) : string :=
  string_of_list_ascii (rstrip_bytes (list_ascii_of_string s)).

(** [str.strip()] with no argument. *)
Definition strip (s : string) : string := rstrip (lstrip s).

(** [needle in hay] on strings: the substring test. *)
Fixpoint contains (needle hay : string) : bool :=
  String.prefix needle hay
  || match hay with
     | EmptyString => false
     | String _ hay' => contains needle hay'
     end.

(** [str(n)] for an integer: decimal digits, a leading minus sign. *)
Definition str_int (z : Z) : string := NilZero.string_of_int (Z.to_int z).

(** [str(x)] for a float holding a whole number of days, or NaN.  Day
    counts stay far below 10^16, where Python switches to exponents. *)
Definition str_float (x : option Z) : string :=
  match x with
  | Some z => str_int z ++ ".0"
  | None => "nan"
  end.

End PyStr.

(** ** The uploaded sheet *)

(** A claim id is opaque: text or a number. *)
Inductive ident : Type :=
| IdText (s : string)
| IdNum (z : Z).

(** A cell of the [last_updated_at] column, as [read_excel] delivers it. *)
Inductive date_cell : Type :=
| DBlank
| DStamp (ns : Z)
| DText (s : string).

Module Raw.
(** One row of the sheet, on the four columns the script reads. *)
Record row : Type := mk {
  claimStatus : option string;
  assigned_to_doctor : option string;
  claim_id : option ident;
  last_updated_at : date_cell
}.
End Raw.

(** The frame [pd.read_excel] returns.  [columns] holds the header labels
    as written in the sheet; the field of a row for a column that the sheet
    does not have is never read. *)
Record DataFrame : Type := {
  columns : list string;
  rows : list Raw.row
}.

(** ** Failures *)

(** What the script can raise before the report is built.
    - [KeyError]: a column label is not in the frame ([df["c"]],
      [df[[...]]]); it carries the labels that are missing.
    - [AttributeError]: the [.str] accessor on a column without text.
    - [DateParseError]: [pd.to_datetime] rejected a text; it carries the
      position of the element in the converted column and the text. *)
Inductive error : Type :=
| KeyError (labels : list string)
| AttributeError
| DateParseError (position : nat) (text : string).

Inductive result (A : Type) : Type :=
| Ok (a : A)
| Err (e : error).
Arguments Ok {A} a.
Arguments Err {A} e.

Definition bind {A B : Type} (m : result A) (k : A -> result B) : result B :=
  match m with
  | Ok a => k a
  | Err e => Err e
  end.

Notation "x <- m ;; k" := (bind m (fun x => k))
  (at level 61, m at next level, right associativity).

(** ** The processed frame and the report *)

Module Claim.
(** A row of [df] after line 45: the three columns that are kept.  A
    blank timestamp gives NaT, and NaT gives a NaN day count ([None]). *)
Record row : Type := mk {
  assigned_to_doctor : option string;
  claim_id : option ident;
  days_since_updated : option Z
}.
End Claim.

Module Summary.
(** A row of [summary_df]. *)
Record row : Type := mk {
  assigned_to_doctor : string;
  total_claims : Z;
  overdue_claims : Z
}.
End Summary.

(** A value placed in a reportlab table: text, an integer, a float (a whole
    number of days or NaN), or a claim id taken as it is from the frame. *)
Inductive cell : Type :=
| CStr (s : string)
| CInt (z : Z)
| CFloat (x : option Z)
| CId (i : option ident).

Inductive color : Type := lightgrey | black | grey | lightpink.

(** Line widths are given in half points: the script's 0.5 is [1]. *)
Inductive style_cmd : Type :=
| BACKGROUND (start stop : Z * Z) (c : color)
| TEXTCOLOR (start stop : Z * Z) (c : color)
| GRID (start stop : Z * Z) (half_points : Z) (c : color)
| FONTNAME (start stop : Z * Z) (font : string).

Inductive style_name : Type := Title | Heading2 | Heading3.

Inductive flowable : Type :=
| Paragraph (text : string) (style : style_name)
| Spacer (width height : Z)
| Table (data : list (list cell)) (colWidths : list Z) (style : list style_cmd).

(** What one run leaves behind: the processed frame (shown in the preview
    expander), the summary frame and the story of the PDF. *)
Record report : Type := {
  df_out : list Claim.row;
  summary_df : list Summary.row;
  pdf_output : list flowable
}.

(** ** Loading and filtering (lines 30-36) *)

(** [df.columns = df.columns.str.strip()] *)
Definition strip_columns (df : DataFrame) : DataFrame :=
  {| columns := map PyStr.strip (columns df); rows := rows df |}.

Definition has_column (df : DataFrame) (label : string) : bool :=
  existsb (String.eqb label) (columns df).

(** [df[label]]: the column, or [KeyError] when the label is absent.  A
    label names one column: a sheet that holds a label twice once trimmed,
    for which pandas hands back a frame and not a column, is outside the
    model. *)
Definition getitem {A : Type} (df : DataFrame) (label : string)
    (field : Raw.row -> A) : result (list A) :=
  if has_column df label then Ok (map field (rows df))
  else Err (KeyError [label]).

Definition is_text (v : option string) : bool :=
  match v with Some _ => true | None => false end.

(** [series.str.lower()].  A column with rows but no text at all is read as
    a float column, on which pandas refuses the [.str] accessor; a blank
    element stays blank. *)
Definition str_lower (col : list (option string)) : result (list (option string)) :=
  match col with
  | [] => Ok []
  | _ :: _ =>
      if existsb is_text col then Ok (map (option_map PyStr.lower) col)
      else Err AttributeError
  end.

(** [series == text], element by element; NaN equals nothing. *)
Definition series_eq (text : string) (col : list (option string)) : list bool :=
  map (fun v => match v with
                | Some s => String.eqb s text
                | None => false
                end) col.

(** [df[mask]]: the rows at which the mask holds, in their order. *)
Fixpoint boolean_index {A : Type} (l : list A) (mask : list bool) : list A :=
  match l, mask with
  | x :: l', b :: mask' =>
      if b then x :: boolean_index l' mask' else boolean_index l' mask'
  | _, _ => []
  end.

(** Line 36. *)
Definition filter_in_progress (df : DataFrame) : result DataFrame :=
  status <- getitem df "claimStatus" Raw.claimStatus ;;
  lowered <- str_lower status ;;
  Ok {| columns := columns df;
        rows := boolean_index (rows df) (series_eq "in progress" lowered) |}.

(** ** Days since the last update (lines 41-45) *)

Definition ns_per_day : Z := 86400000000000.

(** [pd.Timestamp(datetime.today().date())]: midnight of the clock's day. *)
Definition today (clock : Z) : Z := (clock / ns_per_day) * ns_per_day.

(** [timedelta.dt.days]: whole days, rounded down; NaT gives NaN. *)
Definition dt_days (delta : option Z) : option Z :=
  option_map (fun d => d / ns_per_day) delta.

Section Pipeline.

(** pandas' date parser.  It is handed the column it converts, since it
    may settle on one format for the whole column; [None] is a text it
    rejects. *)
Variable parse : list date_cell -> string -> option Z.

Fixpoint to_datetime_from (col : list date_cell) (position : nat)
    (cells : list date_cell) : result (list (option Z)) :=
  match cells with
  | [] => Ok []
  | c :: cells' =>
      t <- match c with
           | DBlank => Ok None
           | DStamp ns => Ok (Some ns)
           | DText s =>
               match parse col s with
               | Some ns => Ok (Some ns)
               | None => Err (DateParseError position s)
               end
           end ;;
      ts <- to_datetime_from col (S position) cells' ;;
      Ok (t :: ts)
  end.

(** [pd.to_datetime(series)]: every element converted, or the error of
    the first element that is rejected. *)
Definition to_datetime (col : list date_cell) : result (list (option Z)) :=
  to_datetime_from col 0 col.

(** Line 43: [(today - df["last_updated_at"]).dt.days].  Instants are
    naive; a timestamp that carries a time zone, from which pandas refuses
    to subtract the naive [today], is outside the model. *)
Definition days_since (clock : Z) (stamps : list (option Z)) : list (option Z) :=
  map (fun t => dt_days (option_map (fun ns => today clock - ns) t)) stamps.

(** Line 45: [df[["assigned_to_doctor", "claim_id", "days_since_updated"]]].
    The day column was assigned just before, so only the first two
    labels can be missing; the error names all that are. *)
Definition select_columns (df : DataFrame) (days : list (option Z))
    : result (list Claim.row) :=
  match filter (fun label => negb (has_column df label))
               ["assigned_to_doctor"; "claim_id"] with
  | [] =>
      Ok (map (fun rd : Raw.row * option Z =>
                 Claim.mk (Raw.assigned_to_doctor (fst rd))
                          (Raw.claim_id (fst rd)) (snd rd))
              (combine (rows df) days))
  | missing => Err (KeyError missing)
  end.

End Pipeline.

(** ** Sorting (line 47) *)

(** pandas places a blank key last, whatever the direction of the sort. *)
Definition none_last {A : Type} (cmp : A -> A -> comparison)
    (a b : option A) : comparison :=
  match a, b with
  | Some x, Some y => cmp x y
  | Some _, None => Lt
  | None, Some _ => Gt
  | None, None => Eq
  end.

(** Several keys are compared in turn: the first that differs decides. *)
Definition lex {A B : Type} (cmp1 : A -> A -> comparison)
    (cmp2 : B -> B -> comparison) (p q : A * B) : comparison :=
  match cmp1 (fst p) (fst q) with
  | Eq => cmp2 (snd p) (snd q)
  | c => c
  end.

(** Doctors ascending, in the order of Python strings. *)
Definition doctor_cmp : option string -> option string -> comparison :=
  none_last String_as_OT.compare.

(** Day counts descending. *)
Definition days_cmp : option Z -> option Z -> comparison :=
  none_last (fun x y => Z.compare y x).

Definition sort_key (r : Claim.row) : option string * option Z :=
  (Claim.assigned_to_doctor r, Claim.days_since_updated r).

(** The order of [by=["assigned_to_doctor", "days_since_updated"],
    ascending=[True, False]]. *)
Definition row_cmp (a b : Claim.row) : comparison :=
  lex doctor_cmp days_cmp (sort_key a) (sort_key b).

Definition row_leb (a b : Claim.row) : bool :=
  match row_cmp a b with Gt => false | _ => true end.

(** pandas sorts several keys with a stable sort.  A stable sort is
    determined by its order; it is written here as insertion from the
    right, which leaves equal rows in the order they came. *)
Fixpoint insert_row (x : Claim.row) (l : list Claim.row) : list Claim.row :=
  match l with
  | [] => [x]
  | y :: l' => if row_leb x y then x :: l else y :: insert_row x l'
  end.

Fixpoint sort_values (l : list Claim.row) : list Claim.row :=
  match l with
  | [] => []
  | x :: l' => insert_row x (sort_values l')
  end.

(** ** Grouping and the summary frame (lines 54-57) *)

(** The keys of [groupby("assigned_to_doctor")]: the distinct doctors in
    ascending order ([sort=True]); rows with a blank doctor belong to no
    group ([dropna=True]). *)
Fixpoint insert_key (k : string) (keys : list string) : list string :=
  match keys with
  | [] => [k]
  | k' :: keys' =>
      match String_as_OT.compare k k' with
      | Lt => k :: keys
      | Eq => keys
      | Gt => k' :: insert_key k keys'
      end
  end.

Definition group_keys (df : list Claim.row) : list string :=
  fold_right (fun r keys =>
                match Claim.assigned_to_doctor r with
                | Some k => insert_key k keys
                | None => keys
                end) [] df.

Definition in_group (k : string) (r : Claim.row) : bool :=
  match Claim.assigned_to_doctor r with
  | Some d => String.eqb d k
  | None => false
  end.

(** [df.groupby("assigned_to_doctor")]: each key with its rows, which keep
    the order they have in the frame. *)
Definition groupby (df : list Claim.row) : list (string * list Claim.row) :=
  map (fun k => (k, filter (in_group k) df)) (group_keys df).

Definition notna {A : Type} (v : option A) : bool :=
  match v with Some _ => true | None => false end.

(** The ["count"] aggregation: the elements that are not blank. *)
Definition count {A : Type} (col : list (option A)) : Z :=
  Z.of_nat (List.length (filter notna col)).

(** [days > pending_threshold] on one value; NaN exceeds nothing. *)
Definition gt (days : option Z) (pending_threshold : Z) : bool :=
  match days with
  | Some d => pending_threshold <? d
  | None => false
  end.

(** [lambda x: (x > pending_threshold).sum()] *)
Definition sum_gt (pending_threshold : Z) (x : list (option Z)) : Z :=
  Z.of_nat (List.length (filter (fun b : bool => b)
                           (map (fun d => gt d pending_threshold) x))).

Definition aggregate (pending_threshold : Z) (df : list Claim.row)
    : list Summary.row :=
  map (fun g : string * list Claim.row =>
         Summary.mk (fst g)
                    (count (map Claim.claim_id (snd g)))
                    (sum_gt pending_threshold
                            (map Claim.days_since_updated (snd g))))
      (groupby df).

(** ** The PDF story (lines 65-135) *)

(** The warning sign followed by the emoji variation selector. *)
Definition marker : string := "⚠️".

(** The day column holds integers unless some row has NaN, which turns the
    whole column, and so every value read from it, into floats. *)
Definition days_are_float (df : list Claim.row) : bool :=
  existsb (fun r => negb (notna (Claim.days_since_updated r))) df.

Definition days_value (is_float : bool) (d : option Z) : cell :=
  match d with
  | Some z => if is_float then CFloat (Some z) else CInt z
  | None => CFloat None
  end.

(** [str(value)] of a table value; an id prints as it was written. *)
Definition str (c : cell) : string :=
  match c with
  | CStr s => s
  | CInt z => PyStr.str_int z
  | CFloat x => PyStr.str_float x
  | CId (Some (IdText s)) => s
  | CId (Some (IdNum z)) => PyStr.str_int z
  | CId None => "nan"
  end.

(** Lines 83-88: one table row per row of the summary frame. *)
Definition summary_row (s : Summary.row) : list cell :=
  [CStr (Summary.assigned_to_doctor s);
   CInt (Summary.total_claims s);
   CInt (Summary.overdue_claims s)].

Definition summary_table_data (pending_threshold : Z)
    (summarydata : list Summary.row) : list (list cell) :=
  [CStr "Doctor"; CStr "Total Claims";
   CStr ("Pending > " ++ PyStr.str_int pending_threshold ++ " days")]
  :: map summary_row summarydata.

(** Lines 107-114: the row of one claim; an overdue one gets the marker
    written after its day count. *)
Definition detail_row (pending_threshold : Z) (is_float : bool)
    (r : Claim.row) : list cell :=
  let days := days_value is_float (Claim.days_since_updated r) in
  if gt (Claim.days_since_updated r) pending_threshold
  then [CId (Claim.claim_id r); CStr (str days ++ " " ++ marker)]
  else [CId (Claim.claim_id r); days].

(** The test of line 126 on one table row. *)
Definition row_is_marked (row : list cell) : bool :=
  PyStr.contains marker (str (nth 1 row (CStr ""))).

(** Lines 125-127: [enumerate(table_data[1:], start=1)]. *)
Fixpoint highlight (i : Z) (body : list (list cell)) : list style_cmd :=
  match body with
  | [] => []
  | row :: body' =>
      ((if row_is_marked row
        then [BACKGROUND (0, i) (-1, i) lightpink]
        else [])
       ++ highlight (i + 1) body')%list
  end.

(** Lines 102-131: heading, table and spacer of one doctor. *)
Definition detail_section (pending_threshold : Z) (is_float : bool)
    (g : string * list Claim.row) : list flowable :=
  let table_data :=
    [CStr "Claim ID"; CStr "Days since updated"]
    :: map (detail_row pending_threshold is_float) (snd g) in
  let table_style :=
    ([BACKGROUND (0, 0) (-1, 0) lightgrey;
      GRID (0, 0) (-1, -1) 1 grey;
      FONTNAME (0, 0) (-1, -1) "Helvetica"]
     ++ highlight 1 (tl table_data))%list in
  [Paragraph ("<b>" ++ fst g ++ "</b>") Heading3;
   Spacer 1 8;
   Table table_data [120; 130] table_style;
   Spacer 1 20].

Definition generate_pdf (pending_threshold : Z) (dataframe : list Claim.row)
    (summarydata : list Summary.row) : list flowable :=
  ([Paragraph "<b>Pending on Doctors – Report</b>" Title;
   Spacer 1 12;
   Paragraph "<b>Summary Overview</b>" Heading2;
   Table (summary_table_data pending_threshold summarydata)
         [150; 100; 150]
         [BACKGROUND (0, 0) (-1, 0) lightgrey;
          TEXTCOLOR (0, 0) (-1, 0) black;
          GRID (0, 0) (-1, -1) 1 black;
          FONTNAME (0, 0) (-1, -1) "Helvetica"];
   Spacer 1 20]
  ++ flat_map (detail_section pending_threshold (days_are_float dataframe))
              (groupby dataframe))%list.

(** ** One run of the script (lines 26-137) *)

Definition run (parse : list date_cell -> string -> option Z)
    (clock : Z) (pending_threshold : Z) (uploaded_file : DataFrame)
    : result report :=
  let df := strip_columns uploaded_file in
  df <- filter_in_progress df ;;
  stamps <- getitem df "last_updated_at" Raw.last_updated_at ;;
  stamps <- to_datetime parse stamps ;;
  df <- select_columns df (days_since clock stamps) ;;
  let df := sort_values df in
  let summary := aggregate pending_threshold df in
  Ok {| df_out := df;
        summary_df := summary;
        pdf_output := generate_pdf pending_threshold df summary |}.

(** * Vocabulary of the statements *)

(** A three-way comparison that is a total order. *)
Record order_laws {A : Type} (cmp : A -> A -> comparison) : Prop := {
  cmp_eq : forall x y, cmp x y = Eq <-> x = y;
  cmp_opp : forall x y, cmp y x = CompOpp (cmp x y);
  cmp_lt_trans : forall x y z, cmp x y = Lt -> cmp y z = Lt -> cmp x z = Lt
}.

(** [a] may stand before [b] in the sorted frame. *)
Definition row_le (a b : Claim.row) : Prop := row_leb a b = true.

(** Two rows tie when they agree on both sort keys. *)
Definition same_key (a b : Claim.row) : bool :=
  match row_cmp a b with Eq => true | _ => false end.

(** The byte [c] occurs in [s]. *)
Fixpoint occurs (c : ascii) (s : string) : bool :=
  match s with
  | EmptyString => false
  | String c' s' => Ascii.eqb c c' || occurs c s'
  end.

(** The first byte of the marker, 0xE2, which no ASCII text holds. *)
Definition marker_head : ascii := ascii_of_nat 226.

(** The background commands that a list of overdue flags asks for, rows
    being numbered from [i]. *)
Fixpoint paint_flags (i : Z) (flags : list bool) : list style_cmd :=
  match flags with
  | [] => []
  | b :: flags' =>
      ((if b then [BACKGROUND (0, i) (-1, i) lightpink] else [])
       ++ paint_flags (i + 1) flags')%list
  end.

(** The test of line 36 on one row: the status is text whose lower-cased
    form is "in progress". *)
Definition is_in_progress (r : Raw.row) : bool :=
  match Raw.claimStatus r with
  | Some s => String.eqb (PyStr.lower s) "in progress"
  | None => false
  end.

(** The status as the specification normalises it: lower-cased, then
    trimmed of surrounding whitespace. *)
Definition normalized_status (r : Raw.row) : option string :=
  option_map (fun s => PyStr.strip (PyStr.lower s)) (Raw.claimStatus r).

(** The texts of the paragraphs of a story that are set in [style]. *)
Fixpoint headings (style : style_name) (story : list flowable) : list string :=
  match story with
  | [] => []
  | Paragraph text style' :: story' =>
      match style, style' with
      | Title, Title | Heading2, Heading2 | Heading3, Heading3 =>
          text :: headings style story'
      | _, _ => headings style story'
      end
  | _ :: story' => headings style story'
  end.

(** The tables of a story, in order. *)
Fixpoint tables (story : list flowable) : list (list (list cell)) :=
  match story with
  | [] => []
  | Table data _ _ :: story' => data :: tables story'
  | _ :: story' => tables story'
  end.

(** The first column of the body of a table (its rows after the header). *)
Definition first_column (data : list (list cell)) : list cell :=
  map (fun row => hd (CStr "") row) (tl data).

(** An element that [pd.to_datetime] rejects: a text the parser refuses. *)
Definition rejected (parse : list date_cell -> string -> option Z)
    (col : list date_cell) (c : date_cell) : bool :=
  match c with
  | DText s => match parse col s with Some _ => false | None => true end
  | _ => false
  end.

(** The instant an accepted element converts to; a blank gives NaT. *)
Definition converted (parse : list date_cell -> string -> option Z)
    (col : list date_cell) (c : date_cell) : option Z :=
  match c with
  | DBlank => None
  | DStamp ns => Some ns
  | DText s => parse col s
  end.

(** The labels among the two kept sheet columns that a frame lacks. *)
Definition missing_kept (df : DataFrame) : list string :=
  filter (fun label => negb (has_column df label))
         ["assigned_to_doctor"; "claim_id"].

(** The story of a report without claims: title, summary heading, a summary
    table holding only its header row, and no detail section. *)
Definition empty_story (pending_threshold : Z) : list flowable :=
  [Paragraph "<b>Pending on Doctors – Report</b>" Title;
   Spacer 1 12;
   Paragraph "<b>Summary Overview</b>" Heading2;
   Table [[CStr "Doctor"; CStr "Total Claims";
           CStr ("Pending > " ++ PyStr.str_int pending_threshold ++ " days")]]
         [150; 100; 150]
         [BACKGROUND (0, 0) (-1, 0) lightgrey;
          TEXTCOLOR (0, 0) (-1, 0) black;
          GRID (0, 0) (-1, -1) 1 black;
          FONTNAME (0, 0) (-1, -1) "Helvetica"];
   Spacer 1 20].

(** The day count of an instant [t] read off the calendar: the days from
    the date of [t] to the date of the clock, less one when [t] is not at
    midnight. *)
Definition calendar_days (clock t : Z) : Z :=
  clock / ns_per_day - t / ns_per_day
  - (if t mod ns_per_day =? 0 then 0 else 1).

(** The row of the processed frame made of a kept sheet row and its day
    count. *)
Definition enrich (rd : Raw.row * option Z) : Claim.row :=
  Claim.mk (Raw.assigned_to_doctor (fst rd)) (Raw.claim_id (fst rd)) (snd rd).

(** The report built from a processed, sorted frame (lines 54-137). *)
Definition report_of (pending_threshold : Z) (df : list Claim.row) : report :=
  {| df_out := df;
     summary_df := aggregate pending_threshold df;
     pdf_output :=
       generate_pdf pending_threshold df (aggregate pending_threshold df) |}.

(** The four labels the script looks up. *)
Definition required_columns : list string :=
  ["claimStatus"; "last_updated_at"; "assigned_to_doctor"; "claim_id"].

(** The row of the processed frame that a kept sheet row becomes: its doctor
    and id as they are, and the day count of its converted timestamp. *)
Definition processed (parse : list date_cell -> string -> option Z)
    (col : list date_cell) (clock : Z) (r : Raw.row) : Claim.row :=
  Claim.mk (Raw.assigned_to_doctor r) (Raw.claim_id r)
    (option_map (calendar_days clock)
       (converted parse col (Raw.last_updated_at r))).

(** [a] may stand before [b] in a detail table: the day count of [a] is not
    below that of [b], and a row without day count stands last. *)
Definition days_le (a b : Claim.row) : Prop :=
  days_cmp (Claim.days_since_updated a) (Claim.days_since_updated b) <> Gt.

(** A table is well formed when it has a header row and every row has one
    value per column width. *)
Definition rectangular (f : flowable) : Prop :=
  match f with
  | Table data colWidths _ =>
      data <> []
      /\ Forall (fun row => List.length row = List.length colWidths) data
  | _ => True
  end.

(** The row that a background command paints, if it paints one whole row. *)
Definition painted_row (c : style_cmd) : option Z :=
  match c with
  | BACKGROUND (0, i) (-1, j) lightpink => if i =? j then Some i else None
  | _ => None
  end.

(** The row names a doctor. *)
Definition has_doctor (r : Claim.row) : bool :=
  notna (Claim.assigned_to_doctor r).

(** The doctor of the row is one of [keys]. *)
Definition in_groups (keys : list string) (r : Claim.row) : bool :=
  existsb (fun k => in_group k r) keys.

(** The bytes at the head of [l] are a whitespace character, for given tests
    on one, two and three bytes. *)
Definition leading (sp1 : ascii -> bool) (sp2 : ascii -> ascii -> bool)
    (sp3 : ascii -> ascii -> ascii -> bool) (l : list ascii) : bool :=
  match l with
  | [] => false
  | c :: l1 =>
      sp1 c
      || match l1 with
         | [] => false
         | d :: l2 =>
             sp2 c d
             || match l2 with
                | [] => false
                | e :: _ => sp3 c d e
                end
         end
  end.

(** * Properties *)

(** ** Three-way comparisons that are orders *)

Lemma str_lt_irrefl (x : string) : ~ String_as_OT.lt x x.
Proof. apply (@StrictOrder_Irreflexive _ _ String_as_OT.lt_strorder). Qed.

Lemma str_lt_trans (x y z : string) :
  String_as_OT.lt x y -> String_as_OT.lt y z -> String_as_OT.lt x z.
Proof. apply (@StrictOrder_Transitive _ _ String_as_OT.lt_strorder). Qed.

Lemma string_order : order_laws String_as_OT.compare.
Proof.
  split.
  - intros x y.
    destruct (String_as_OT.compare_spec x y) as [H | H | H];
      unfold String_as_OT.eq in *; split; intro E;
      try discriminate; try assumption; try reflexivity;
      subst; exfalso; exact (str_lt_irrefl _ H).
  - intros x y.
    destruct (String_as_OT.compare_spec x y) as [H | H | H];
      destruct (String_as_OT.compare_spec y x) as [H' | H' | H'];
      unfold String_as_OT.eq in *; simpl; try reflexivity; subst; exfalso;
      solve [ exact (str_lt_irrefl _ H)
            | exact (str_lt_irrefl _ H')
            | exact (str_lt_irrefl _ (str_lt_trans _ _ _ H H')) ].
  - intros x y z Hxy Hyz.
    exact (str_lt_trans x y z Hxy Hyz).
Qed.

Lemma descending_order : order_laws (fun x y : Z => Z.compare y x).
Proof.
  split.
  - intros x y. rewrite Z.compare_eq_iff. split; congruence.
  - intros x y. apply Z.compare_antisym.
  - intros x y z. rewrite !Z.compare_lt_iff. lia.
Qed.

Lemma none_last_order {A : Type} (cmp : A -> A -> comparison) :
  order_laws cmp -> order_laws (none_last cmp).
Proof.
  intros [E O T]. split.
  - intros [x |] [y |]; simpl; split; intro H; try discriminate;
      try reflexivity.
    + f_equal. now apply E.
    + apply E. congruence.
  - intros [x |] [y |]; simpl; auto.
  - intros [x |] [y |] [z |]; simpl; intros; try discriminate;
      try reflexivity; eauto.
Qed.

Lemma lex_order {A B : Type} (cmp1 : A -> A -> comparison)
    (cmp2 : B -> B -> comparison) :
  order_laws cmp1 -> order_laws cmp2 -> order_laws (lex cmp1 cmp2).
Proof.
  intros [E1 O1 T1] [E2 O2 T2]. split.
  - intros [a b] [a' b']; unfold lex; simpl. split.
    + destruct (cmp1 a a') eqn:C; try discriminate.
      intro H. apply E1 in C. apply E2 in H. congruence.
    + intro H. inversion H; subst.
      rewrite (proj2 (E1 a' a') eq_refl). now apply E2.
  - intros [a b] [a' b']; unfold lex; simpl.
    rewrite (O1 a a'). destruct (cmp1 a a'); simpl; auto.
  - intros [a b] [a' b'] [a'' b'']; unfold lex; simpl.
    destruct (cmp1 a a') eqn:C1; try discriminate;
      destruct (cmp1 a' a'') eqn:C2; try discriminate; intros H1 H2.
    + apply E1 in C1. apply E1 in C2. subst.
      rewrite (proj2 (E1 a'' a'') eq_refl). eauto.
    + apply E1 in C1. subst. now rewrite C2.
    + apply E1 in C2. subst. now rewrite C1.
    + now rewrite (T1 _ _ _ C1 C2).
Qed.

Lemma key_order : order_laws (lex doctor_cmp days_cmp).
Proof.
  apply lex_order; apply none_last_order;
    [apply string_order | apply descending_order].
Qed.

Section OrderFacts.

Context {A : Type} (cmp : A -> A -> comparison) (laws : order_laws cmp).

Lemma cmp_refl (x : A) : cmp x x = Eq.
Proof. now apply (cmp_eq cmp laws). Qed.

Lemma cmp_gt_lt (x y : A) : cmp x y = Gt -> cmp y x = Lt.
Proof. intro H. rewrite (cmp_opp cmp laws x y), H. reflexivity. Qed.

Lemma cmp_le_trans (x y z : A) :
  cmp x y <> Gt -> cmp y z <> Gt -> cmp x z <> Gt.
Proof.
  intros Hxy Hyz.
  destruct (cmp x y) eqn:Cxy; [| | congruence].
  - apply (cmp_eq cmp laws) in Cxy. now subst.
  - destruct (cmp y z) eqn:Cyz; [| | congruence].
    + apply (cmp_eq cmp laws) in Cyz. subst. rewrite Cxy. discriminate.
    + rewrite (cmp_lt_trans cmp laws _ _ _ Cxy Cyz). discriminate.
Qed.

End OrderFacts.

(** ** The sort *)

Lemma row_leb_cmp (a b : Claim.row) : row_leb a b = true <-> row_cmp a b <> Gt.
Proof.
  unfold row_leb. destruct (row_cmp a b); split; congruence.
Qed.

Lemma row_le_trans (a b c : Claim.row) : row_le a b -> row_le b c -> row_le a c.
Proof.
  unfold row_le. rewrite !row_leb_cmp. unfold row_cmp.
  apply (cmp_le_trans _ key_order).
Qed.

Lemma row_le_total (a b : Claim.row) : row_leb a b = false -> row_le b a.
Proof.
  unfold row_le, row_leb, row_cmp. intro H.
  destruct (lex doctor_cmp days_cmp (sort_key a) (sort_key b)) eqn:C;
    try discriminate.
  now rewrite (cmp_gt_lt _ key_order _ _ C).
Qed.

Lemma same_key_keys (a b : Claim.row) :
  same_key a b = true <-> sort_key a = sort_key b.
Proof.
  unfold same_key, row_cmp.
  rewrite <- (cmp_eq _ key_order).
  destruct (lex doctor_cmp days_cmp (sort_key a) (sort_key b));
    split; congruence.
Qed.

Lemma insert_row_perm (x : Claim.row) (l : list Claim.row) :
  Permutation (x :: l) (insert_row x l).
Proof.
  induction l as [| y l IH]; simpl.
  - apply Permutation_refl.
  - destruct (row_leb x y).
    + apply Permutation_refl.
    + eapply perm_trans; [apply perm_swap |]. now apply perm_skip.
Qed.

Lemma sort_values_perm (l : list Claim.row) : Permutation l (sort_values l).
Proof.
  induction l as [| x l IH]; simpl.
  - apply perm_nil.
  - eapply perm_trans; [apply perm_skip, IH | apply insert_row_perm].
Qed.

Lemma insert_row_sorted (x : Claim.row) (l : list Claim.row) :
  Sorted row_le l -> Sorted row_le (insert_row x l).
Proof.
  induction l as [| y l IH]; simpl; intro S.
  - repeat constructor.
  - destruct (row_leb x y) eqn:L.
    + constructor; [assumption | constructor; exact L].
    + inversion S as [| ? ? S' Hd]; subst.
      constructor; [now apply IH |].
      destruct l as [| z l]; simpl.
      * constructor. now apply row_le_total.
      * destruct (row_leb x z).
        -- constructor. now apply row_le_total.
        -- inversion Hd; subst. now constructor.
Qed.

Lemma sort_values_sorted (l : list Claim.row) :
  StronglySorted row_le (sort_values l).
Proof.
  apply Sorted_StronglySorted.
  - intros a b c. apply row_le_trans.
  - induction l as [| x l IH]; simpl.
    + constructor.
    + now apply insert_row_sorted.
Qed.

Lemma insert_row_stable (k x : Claim.row) (l : list Claim.row) :
  filter (same_key k) (insert_row x l) = filter (same_key k) (x :: l).
Proof.
  induction l as [| y l IH]; simpl.
  - reflexivity.
  - destruct (row_leb x y) eqn:L; simpl.
    + reflexivity.
    + simpl in IH. rewrite IH.
      destruct (same_key k x) eqn:Kx; destruct (same_key k y) eqn:Ky;
        try reflexivity.
      exfalso.
      apply same_key_keys in Kx. apply same_key_keys in Ky.
      unfold row_leb, row_cmp in L. rewrite <- Kx, <- Ky in L.
      rewrite (cmp_refl _ key_order) in L. discriminate.
Qed.

Lemma sort_values_stable (k : Claim.row) (l : list Claim.row) :
  filter (same_key k) (sort_values l) = filter (same_key k) l.
Proof.
  induction l as [| x l IH]; simpl.
  - reflexivity.
  - rewrite insert_row_stable. simpl. now rewrite IH.
Qed.

(** On rows whose keys are all present, [row_le] is the order the script
    asks for: the doctor ascending, then the day count descending. *)
Lemma row_le_present (a b : Claim.row) (da db : string) (na nb : Z) :
  sort_key a = (Some da, Some na) ->
  sort_key b = (Some db, Some nb) ->
  row_le a b <-> String_as_OT.lt da db \/ (da = db /\ nb <= na).
Proof.
  intros Ka Kb. unfold row_le, row_leb, row_cmp, lex.
  rewrite Ka, Kb. simpl. unfold String_as_OT.lt.
  destruct (String_as_OT.compare da db) eqn:C.
  - apply (cmp_eq _ string_order) in C. subst.
    destruct (Z.compare_spec nb na) as [N | N | N]; split; intro H;
      try discriminate; try reflexivity.
    + right. split; [reflexivity | lia].
    + right. split; [reflexivity | lia].
    + destruct H as [H | [_ H]]; [discriminate | lia].
  - split; auto.
  - split; [discriminate |].
    intros [H | [H _]]; [discriminate |].
    subst. rewrite (cmp_refl _ string_order) in C. discriminate.
Qed.

(** Blank keys go last: a row with a doctor stands before a row without
    one, and within a doctor a row with a day count before a NaN row. *)
Lemma row_le_blank_last (a b : Claim.row) :
  (Claim.assigned_to_doctor a <> None /\ Claim.assigned_to_doctor b = None)
  \/ (Claim.assigned_to_doctor a = Claim.assigned_to_doctor b
      /\ Claim.days_since_updated b = None) ->
  row_le a b.
Proof.
  unfold row_le, row_leb, row_cmp, lex, sort_key. simpl.
  intros [[Ha Hb] | [Hd Hn]].
  - rewrite Hb. destruct (Claim.assigned_to_doctor a); [reflexivity | congruence].
  - rewrite Hd, Hn, (cmp_refl _ (none_last_order _ string_order)).
    destruct (Claim.days_since_updated a); reflexivity.
Qed.

(** C4.  The frame that [sort_values] returns holds the same rows as its
    input, is sorted by [row_le] (doctor ascending, then days descending),
    every row standing before all the rows after it, and the sort is stable:
    the rows that tie with any given row on both keys come out in the order
    in which they went in. *)
Theorem C4_sort_values_sorted_stable (l : list Claim.row) :
  StronglySorted row_le (sort_values l)
  /\ Permutation l (sort_values l)
  /\ forall k, filter (same_key k) (sort_values l) = filter (same_key k) l.
Proof.
  split; [apply sort_values_sorted |].
  split; [apply sort_values_perm |].
  intro k. apply sort_values_stable.
Qed.

(** ** The marker and the printed day counts *)

Lemma contains_app_r (needle s t : string) :
  PyStr.contains needle t = true -> PyStr.contains needle (s ++ t) = true.
Proof.
  intro H. induction s as [| c s IH].
  - exact H.
  - change (String c s ++ t) with (String c (s ++ t)).
    cbn [PyStr.contains]. rewrite IH. apply orb_true_r.
Qed.

Lemma contains_occurs (c : ascii) (needle hay : string) :
  PyStr.contains (String c needle) hay = true -> occurs c hay = true.
Proof.
  induction hay as [| h hay IH]; simpl.
  - discriminate.
  - intro H. apply orb_true_iff in H. destruct H as [H | H].
    + destruct (ascii_dec c h) as [E | E]; [| discriminate].
      subst. now rewrite Ascii.eqb_refl.
    + rewrite (IH H). apply orb_true_r.
Qed.

Lemma occurs_app (c : ascii) (s t : string) :
  occurs c (s ++ t) = occurs c s || occurs c t.
Proof.
  induction s as [| h s IH]; simpl; [reflexivity |].
  now rewrite IH, orb_assoc.
Qed.

Lemma occurs_digits (d : Decimal.uint) :
  occurs marker_head (NilEmpty.string_of_uint d) = false.
Proof.
  induction d; simpl; try reflexivity; exact IHd.
Qed.

Lemma occurs_uint (d : Decimal.uint) :
  occurs marker_head (NilZero.string_of_uint d) = false.
Proof.
  destruct d; try reflexivity; apply occurs_digits.
Qed.

Lemma occurs_str_int (z : Z) : occurs marker_head (PyStr.str_int z) = false.
Proof.
  unfold PyStr.str_int, NilZero.string_of_int.
  destruct (Z.to_int z); simpl; apply occurs_uint.
Qed.

Lemma occurs_str_float (x : option Z) :
  occurs marker_head (PyStr.str_float x) = false.
Proof.
  destruct x as [z |]; simpl; [| reflexivity].
  now rewrite occurs_app, occurs_str_int.
Qed.

(** No printed day count holds the marker. *)
Lemma days_value_unmarked (is_float : bool) (d : option Z) :
  PyStr.contains marker (str (days_value is_float d)) = false.
Proof.
  destruct (PyStr.contains marker (str (days_value is_float d))) eqn:C;
    [| reflexivity].
  apply (contains_occurs marker_head) in C.
  destruct d as [z |]; [destruct is_float |]; simpl in C.
  - now rewrite occurs_app, occurs_str_int in C.
  - now rewrite occurs_str_int in C.
  - discriminate.
Qed.

(** The test of line 126 finds the marker on exactly the overdue rows. *)
Lemma row_is_marked_gt (pending_threshold : Z) (is_float : bool)
    (r : Claim.row) :
  row_is_marked (detail_row pending_threshold is_float r)
  = gt (Claim.days_since_updated r) pending_threshold.
Proof.
  unfold row_is_marked, detail_row.
  destruct (gt (Claim.days_since_updated r) pending_threshold); simpl.
  - apply contains_app_r. reflexivity.
  - apply days_value_unmarked.
Qed.

(** ** The overdue boundary *)


Lemma sum_gt_filter (pending_threshold : Z) (x : list (option Z)) :
  sum_gt pending_threshold x
  = Z.of_nat (List.length (filter (fun d => gt d pending_threshold) x)).
Proof.
  unfold sum_gt. f_equal.
  induction x as [| d x IH]; simpl; [reflexivity |].
  destruct (gt d pending_threshold); simpl; now rewrite IH.
Qed.

(** ** How a detail row carries its overdue status *)

Lemma highlight_paint (pending_threshold : Z) (is_float : bool)
    (g : list Claim.row) (i : Z) :
  highlight i (map (detail_row pending_threshold is_float) g)
  = paint_flags i
      (map (fun r => gt (Claim.days_since_updated r) pending_threshold) g).
Proof.
  revert i. induction g as [| r g IH]; intro i; simpl; [reflexivity |].
  now rewrite row_is_marked_gt, IH.
Qed.

(** C5, counterexample.  The row built for an overdue claim holds two
    values, the id and a text; no flag is stored.  Line 126 reads the text:
    with the same id, the text "40" followed by the marker is highlighted and
    the text "40" is not. *)
Lemma C5_highlight_is_read_from_the_text :
  detail_row 30 false (Claim.mk (Some "Dr. A") (Some (IdNum 1)) (Some 40))
  = [CId (Some (IdNum 1)); CStr ("40 " ++ marker)]
  /\ row_is_marked [CId (Some (IdNum 1)); CStr ("40 " ++ marker)] = true
  /\ row_is_marked [CId (Some (IdNum 1)); CStr "40"] = false.
Proof. repeat split; reflexivity. Qed.

(** C5, as amended.  A detail row holds the claim id and one more value:
    for an overdue claim the text of its day count followed by a space and
    the marker, otherwise the day count itself.  The marker is found in
    that value exactly when the claim is overdue, so the rows that line 126
    paints are the rows that a list of overdue flags would select. *)
Theorem C5_overdue_status_is_the_marker_text
    (pending_threshold : Z) (is_float : bool) (g : list Claim.row)
    (i : Z) (r : Claim.row) :
  let days := Claim.days_since_updated r in
  detail_row pending_threshold is_float r
  = [CId (Claim.claim_id r);
     if gt days pending_threshold
     then CStr (str (days_value is_float days) ++ " " ++ marker)
     else days_value is_float days]
  /\ row_is_marked (detail_row pending_threshold is_float r)
     = gt days pending_threshold
  /\ highlight i (map (detail_row pending_threshold is_float) g)
     = paint_flags i
         (map (fun r' => gt (Claim.days_since_updated r') pending_threshold) g).
Proof.
  intro days. split; [| split].
  - unfold detail_row. fold days. now destruct (gt days pending_threshold).
  - apply row_is_marked_gt.
  - apply highlight_paint.
Qed.

(** ** The status filter *)

Lemma boolean_index_status (l : list Raw.row) :
  boolean_index l
    (series_eq "in progress"
       (map (option_map PyStr.lower) (map Raw.claimStatus l)))
  = filter is_in_progress l.
Proof.
  induction l as [| r l IH]; simpl; [reflexivity |].
  rewrite IH. unfold is_in_progress.
  destruct (Raw.claimStatus r); reflexivity.
Qed.

Lemma existsb_is_text (l : list Raw.row) :
  existsb is_text (map Raw.claimStatus l) = true <->
  exists r s, In r l /\ Raw.claimStatus r = Some s.
Proof.
  rewrite existsb_exists. split.
  - intros [v [Hin Hv]]. apply in_map_iff in Hin.
    destruct Hin as [r [Hr Hin]]. subst v.
    destruct (Raw.claimStatus r) as [s |] eqn:E; [| discriminate].
    now exists r, s.
  - intros [r [s [Hin E]]]. exists (Some s). split; [| reflexivity].
    rewrite <- E. now apply in_map.
Qed.

(** When line 36 returns, it returns the rows that pass [is_in_progress],
    in their order, under the same header. *)
Lemma filter_in_progress_ok (df df' : DataFrame) :
  filter_in_progress df = Ok df' ->
  has_column df "claimStatus" = true
  /\ columns df' = columns df
  /\ rows df' = filter is_in_progress (rows df).
Proof.
  unfold filter_in_progress, getitem.
  destruct (has_column df "claimStatus"); [| discriminate].
  cbn [bind]. unfold str_lower.
  destruct (map Raw.claimStatus (rows df)) as [| v col] eqn:E.
  - cbn [bind series_eq map]. intro H. inversion H; subst; clear H.
    cbn [columns rows]. destruct (rows df); [repeat split | discriminate].
  - destruct (existsb is_text (v :: col)); [| discriminate].
    cbn [bind]. rewrite <- E, boolean_index_status.
    intro H. inversion H; subst; clear H. repeat split.
Qed.

(** Line 36 returns whenever the status column is there and holds a text,
    or the sheet has no rows. *)
Lemma filter_in_progress_returns (df : DataFrame) :
  has_column df "claimStatus" = true ->
  rows df = [] \/ (exists r s, In r (rows df) /\ Raw.claimStatus r = Some s) ->
  filter_in_progress df
  = Ok {| columns := columns df; rows := filter is_in_progress (rows df) |}.
Proof.
  intros Hc Ht. unfold filter_in_progress, getitem. rewrite Hc.
  cbn [bind]. unfold str_lower.
  destruct (map Raw.claimStatus (rows df)) as [| v col] eqn:E.
  - destruct (rows df); [reflexivity | discriminate].
  - rewrite <- E.
    assert (X : existsb is_text (map Raw.claimStatus (rows df)) = true).
    { destruct Ht as [Ht | Ht]; [rewrite Ht in E; discriminate |].
      now apply existsb_is_text. }
    rewrite X. cbn [bind]. now rewrite boolean_index_status.
Qed.

Lemma is_in_progress_spec (r : Raw.row) :
  is_in_progress r = true <->
  exists s, Raw.claimStatus r = Some s /\ PyStr.lower s = "in progress".
Proof.
  unfold is_in_progress. destruct (Raw.claimStatus r) as [s |].
  - rewrite String.eqb_eq. split.
    + intro H. now exists s.
    + intros [s' [E H]]. now inversion E; subst.
  - split; [discriminate | intros [s [E _]]; discriminate].
Qed.

(** C1, counterexample.  A status written with surrounding blanks
    normalises (lower-cased and trimmed) to "in progress", yet line 36
    drops the row: the script lower-cases the status and does not trim
    it. *)
Lemma C1_padded_status_is_dropped :
  let r := Raw.mk (Some " In Progress ") (Some "Dr. A") (Some (IdNum 1))
                  (DStamp 0) in
  let df := {| columns := ["claimStatus"]; rows := [r] |} in
  normalized_status r = Some "in progress"
  /\ filter_in_progress df = Ok {| columns := ["claimStatus"]; rows := [] |}.
Proof. split; reflexivity. Qed.

(** C1, as amended.  On a sheet that has the status column and a text in
    it (or no rows), line 36 returns, and it keeps a row if and only if its
    status is text whose lower-cased form, untrimmed, equals "in progress";
    the kept rows stay in their order and every one of them has that
    status. *)
Theorem C1_filter_keeps_lowercased_in_progress (df : DataFrame) :
  has_column df "claimStatus" = true ->
  rows df = [] \/ (exists r s, In r (rows df) /\ Raw.claimStatus r = Some s) ->
  exists df',
    filter_in_progress df = Ok df'
    /\ rows df' = filter is_in_progress (rows df)
    /\ (forall r, In r (rows df') <->
          In r (rows df)
          /\ exists s, Raw.claimStatus r = Some s
                       /\ PyStr.lower s = "in progress").
Proof.
  intros Hc Ht. eexists. split; [apply filter_in_progress_returns; assumption |].
  split; [reflexivity |].
  intro r. cbn [rows]. rewrite filter_In, is_in_progress_spec. reflexivity.
Qed.

(** A witness of C1: one row in progress, one closed. *)
Lemma C1_witness :
  let a := Raw.mk (Some "In Progress") (Some "Dr. A") (Some (IdNum 1)) (DStamp 0) in
  let b := Raw.mk (Some "Closed") (Some "Dr. B") (Some (IdNum 3)) (DStamp 0) in
  exists df',
    filter_in_progress {| columns := ["claimStatus"]; rows := [a; b] |} = Ok df'
    /\ rows df' = [a].
Proof.
  intros a b.
  destruct (C1_filter_keeps_lowercased_in_progress
              {| columns := ["claimStatus"]; rows := [a; b] |} eq_refl
              (or_intror (ex_intro _ a (ex_intro _ "In Progress"
                            (conj (or_introl eq_refl) eq_refl)))))
    as [df' [H1 [H2 _]]].
  exists df'. split; [exact H1 | exact H2].
Defined.

(** ** Groups *)

Lemma insert_key_In (x k : string) (keys : list string) :
  In x (insert_key k keys) <-> x = k \/ In x keys.
Proof.
  induction keys as [| k' keys IH]; simpl.
  - intuition.
  - destruct (String_as_OT.compare k k') eqn:C; simpl.
    + apply (cmp_eq _ string_order) in C. subst. intuition.
    + intuition.
    + rewrite IH. intuition.
Qed.

Lemma insert_key_HdRel (a k : string) (keys : list string) :
  String_as_OT.lt a k -> HdRel String_as_OT.lt a keys ->
  HdRel String_as_OT.lt a (insert_key k keys).
Proof.
  intros Hak Hd. destruct keys as [| k' keys]; simpl.
  - now constructor.
  - inversion Hd; subst.
    destruct (String_as_OT.compare k k'); now constructor.
Qed.

Lemma insert_key_sorted (k : string) (keys : list string) :
  Sorted String_as_OT.lt keys -> Sorted String_as_OT.lt (insert_key k keys).
Proof.
  induction keys as [| k' keys IH]; simpl; intro S.
  - repeat constructor.
  - inversion S as [| ? ? S' Hd]; subst.
    destruct (String_as_OT.compare k k') eqn:C.
    + exact S.
    + constructor; [exact S | constructor; exact C].
    + constructor; [now apply IH |].
      apply insert_key_HdRel; [| exact Hd].
      exact (cmp_gt_lt _ string_order _ _ C).
Qed.

Lemma group_keys_sorted (df : list Claim.row) :
  StronglySorted String_as_OT.lt (group_keys df).
Proof.
  apply Sorted_StronglySorted; [exact str_lt_trans |].
  induction df as [| r df IH]; simpl; [constructor |].
  destruct (Claim.assigned_to_doctor r); [now apply insert_key_sorted | exact IH].
Qed.

Lemma group_keys_In (k : string) (df : list Claim.row) :
  In k (group_keys df) <->
  exists r, In r df /\ Claim.assigned_to_doctor r = Some k.
Proof.
  induction df as [| r df IH]; simpl.
  - split; [contradiction | intros [r [[] _]]].
  - destruct (Claim.assigned_to_doctor r) as [d |] eqn:E.
    + rewrite insert_key_In, IH. split.
      * intros [H | [r' [Hin H]]]; [subst; exists r; auto | exists r'; auto].
      * intros [r' [[H | Hin] H']].
        -- subst r'. left. congruence.
        -- right. now exists r'.
    + rewrite IH. split.
      * intros [r' [Hin H]]. exists r'; auto.
      * intros [r' [[H | Hin] H']]; [subst r'; congruence | now exists r'].
Qed.

Lemma headings_sections (pending_threshold : Z) (is_float : bool)
    (groups : list (string * list Claim.row)) :
  headings Heading3
    (flat_map (detail_section pending_threshold is_float) groups)
  = map (fun g => "<b>" ++ fst g ++ "</b>") groups.
Proof.
  induction groups as [| g groups IH]; simpl; [reflexivity |].
  now rewrite IH.
Qed.

Lemma aggregate_doctors (pending_threshold : Z) (df : list Claim.row) :
  map Summary.assigned_to_doctor (aggregate pending_threshold df)
  = group_keys df.
Proof.
  unfold aggregate, groupby. rewrite !map_map. simpl. apply map_id.
Qed.

Lemma groupby_doctors (df : list Claim.row) :
  map fst (groupby df) = group_keys df.
Proof. unfold groupby. rewrite map_map. simpl. apply map_id. Qed.

(** C10.  The doctors of the summary table (the first column of its body)
    and the doctors of the detail sections (their headings) are both the
    group keys of the processed frame: every doctor named in it and no
    other, each once, in strictly ascending order.  So the n-th summary row
    and the n-th detail section name the same doctor. *)
Theorem C10_summary_and_sections_name_the_same_doctors
    (pending_threshold : Z) (df : list Claim.row) :
  let story := generate_pdf pending_threshold df
                 (aggregate pending_threshold df) in
  let keys := group_keys df in
  let summary := hd [] (tables story) in
  first_column summary = map CStr keys
  /\ headings Heading3 story = map (fun k => "<b>" ++ k ++ "</b>") keys
  /\ StronglySorted String_as_OT.lt keys
  /\ (forall k, In k keys <->
        exists r, In r df /\ Claim.assigned_to_doctor r = Some k)
  /\ (forall n,
        nth_error (first_column summary) n
        = option_map CStr (nth_error keys n)
        /\ nth_error (headings Heading3 story) n
           = option_map (fun k => "<b>" ++ k ++ "</b>") (nth_error keys n)).
Proof.
  intros story keys summary.
  assert (H1 : first_column summary = map CStr keys).
  { unfold summary, story, generate_pdf, first_column. cbn [tables app hd].
    unfold summary_table_data. cbn [tl]. rewrite map_map.
    unfold keys. rewrite <- (aggregate_doctors pending_threshold df).
    rewrite map_map. reflexivity. }
  assert (H2 : headings Heading3 story
               = map (fun k => "<b>" ++ k ++ "</b>") keys).
  { unfold story, generate_pdf. cbn [app headings].
    rewrite headings_sections. unfold keys.
    rewrite <- (groupby_doctors df), map_map. reflexivity. }
  split; [exact H1 |]. split; [exact H2 |].
  split; [apply group_keys_sorted |].
  split; [intro k; apply group_keys_In |].
  intro n. rewrite H1, H2, !nth_error_map. split; reflexivity.
Qed.

(** ** The summary counts *)

Lemma filter_length_le {A : Type} (f : A -> bool) (l : list A) :
  (List.length (filter f l) <= List.length l)%nat.
Proof.
  induction l as [| x l IH]; simpl; [lia |].
  destruct (f x); simpl; lia.
Qed.

Lemma count_all_present {A : Type} (col : list (option A)) :
  forallb notna col = true -> count col = Z.of_nat (List.length col).
Proof.
  unfold count. intro H. f_equal. f_equal.
  induction col as [| v col IH]; simpl in *; [reflexivity |].
  apply andb_true_iff in H. destruct H as [Hv H].
  rewrite Hv. f_equal. now apply IH.
Qed.

(** What a row of the summary frame holds: [overdue_claims] counts the rows
    of the doctor whose day count exceeds the threshold; [total_claims]
    counts the rows of the doctor whose claim id is not blank, which is all
    of them when no id is blank, and then the overdue count is at most the
    total. *)
Lemma aggregate_row_counts (pending_threshold : Z) (df : list Claim.row)
    (s : Summary.row) :
  In s (aggregate pending_threshold df) ->
  let g := filter (in_group (Summary.assigned_to_doctor s)) df in
  Summary.total_claims s = count (map Claim.claim_id g)
  /\ Summary.overdue_claims s
     = Z.of_nat (List.length
         (filter (fun r => gt (Claim.days_since_updated r) pending_threshold) g))
  /\ (forallb notna (map Claim.claim_id g) = true ->
      Summary.total_claims s = Z.of_nat (List.length g)
      /\ Summary.overdue_claims s <= Summary.total_claims s).
Proof.
  unfold aggregate, groupby. rewrite map_map. intro H.
  apply in_map_iff in H. destruct H as [k [Hs _]]. subst s. cbn.
  set (g := filter (in_group k) df).
  assert (Ho : sum_gt pending_threshold (map Claim.days_since_updated g)
               = Z.of_nat (List.length
                   (filter (fun r => gt (Claim.days_since_updated r)
                                        pending_threshold) g))).
  { rewrite sum_gt_filter. f_equal.
    induction g as [| r g' IH]; simpl; [reflexivity |].
    destruct (gt (Claim.days_since_updated r) pending_threshold); simpl;
      now rewrite IH. }
  split; [reflexivity |]. split; [exact Ho |].
  intro Hp. rewrite (count_all_present _ Hp), length_map.
  split; [reflexivity |]. rewrite Ho.
  apply Nat2Z.inj_le, filter_length_le.
Qed.

(** C3, at the failing input.  One claim in progress for "Dr. A", updated
    40 days ago, with a blank claim id, against the threshold 30: the detail
    frame holds the claim, and the summary row of the doctor shows no claim
    in total and one overdue. *)
Theorem C3_blank_claim_id_is_not_counted :
  let sheet :=
    {| columns := ["claim_id"; "assigned_to_doctor"; "claimStatus";
                   "last_updated_at"];
       rows := [Raw.mk (Some "In Progress") (Some "Dr. A") None
                       (DStamp (60 * ns_per_day))] |} in
  exists rep,
    run (fun _ _ => None) (100 * ns_per_day) 30 sheet = Ok rep
    /\ df_out rep = [Claim.mk (Some "Dr. A") None (Some 40)]
    /\ summary_df rep = [Summary.mk "Dr. A" 0 1].
Proof.
  intro sheet. eexists. split; [vm_compute; reflexivity |].
  split; reflexivity.
Qed.

(** ** Converting the timestamps *)

Section ToDatetime.

Variable parse : list date_cell -> string -> option Z.
Variable col : list date_cell.

Lemma to_datetime_from_ok (position : nat) (cells : list date_cell) :
  existsb (rejected parse col) cells = false ->
  to_datetime_from parse col position cells
  = Ok (map (converted parse col) cells).
Proof.
  revert position. induction cells as [| c cells IH]; intros position H.
  - reflexivity.
  - simpl in H. apply orb_false_iff in H. destruct H as [Hc H].
    cbn [to_datetime_from map]. rewrite (IH (S position) H).
    destruct c as [| ns | s]; try reflexivity.
    simpl in Hc. simpl. destruct (parse col s); [reflexivity | discriminate].
Qed.

Lemma to_datetime_from_err (position : nat) (cells : list date_cell) :
  existsb (rejected parse col) cells = true ->
  exists k s,
    to_datetime_from parse col position cells
    = Err (DateParseError (position + k) s)
    /\ nth_error cells k = Some (DText s)
    /\ parse col s = None
    /\ existsb (rejected parse col) (firstn k cells) = false.
Proof.
  revert position. induction cells as [| c cells IH]; intros position H.
  - discriminate.
  - destruct (rejected parse col c) eqn:Hc.
    + destruct c as [| ns | s]; try discriminate.
      simpl in Hc. destruct (parse col s) eqn:P; [discriminate |].
      exists 0%nat, s. cbn [to_datetime_from]. rewrite P.
      rewrite Nat.add_0_r. repeat split; reflexivity.
    + simpl in H. rewrite Hc in H. simpl in H.
      destruct (IH (S position) H) as [k [s [E [Hn [P F]]]]].
      exists (S k), s. cbn [to_datetime_from]. rewrite E.
      rewrite Nat.add_succ_r. repeat split.
      * destruct c as [| ns | s']; try reflexivity.
        simpl in Hc. simpl. destruct (parse col s'); [reflexivity | discriminate].
      * exact Hn.
      * exact P.
      * cbn [firstn existsb]. now rewrite Hc, F.
Qed.

End ToDatetime.

(** ** One run *)

(** C9.  A run reads its environment only through the clock, and the clock
    only through its calendar day: two runs on the same sheet with the same
    threshold, started at any two instants of the same day, end alike, with
    the same failure or with the same processed frame, summary frame and
    story. *)
Theorem C9_run_depends_on_the_date_only
    (parse : list date_cell -> string -> option Z)
    (clock1 clock2 pending_threshold : Z) (uploaded_file : DataFrame) :
  clock1 / ns_per_day = clock2 / ns_per_day ->
  run parse clock1 pending_threshold uploaded_file
  = run parse clock2 pending_threshold uploaded_file.
Proof.
  intro H. unfold run, days_since, today. now rewrite H.
Qed.

(** A witness of C9: two instants of day 100. *)
Lemma C9_witness :
  let sheet :=
    {| columns := ["claim_id"; "assigned_to_doctor"; "claimStatus";
                   "last_updated_at"];
       rows := [Raw.mk (Some "In Progress") (Some "Dr. A") (Some (IdNum 1))
                       (DStamp (60 * ns_per_day))] |} in
  run (fun _ _ => None) (100 * ns_per_day + 5) 30 sheet
  = run (fun _ _ => None) (100 * ns_per_day + 999) 30 sheet.
Proof.
  intro sheet.
  apply (C9_run_depends_on_the_date_only (fun _ _ => None)
           (100 * ns_per_day + 5) (100 * ns_per_day + 999) 30 sheet).
  reflexivity.
Defined.

Lemma has_column_columns (df df' : DataFrame) (label : string) :
  columns df' = columns df -> has_column df' label = has_column df label.
Proof. unfold has_column. now intros ->. Qed.





(** C6, counterexample.  Two sheets on which a timestamp is no date and the
    run raises nothing.  On the first, the timestamp of a closed claim is a
    text that the parser rejects: the filter runs before [pd.to_datetime], so
    the text is never parsed, and the run returns the empty report.  On the
    second, the timestamp of a claim in progress is blank: it converts to
    NaT, and the run returns a report that keeps the claim with no day
    count. *)
Lemma C6_timestamps_that_raise_nothing :
  let header := ["claim_id"; "assigned_to_doctor"; "claimStatus";
                 "last_updated_at"] in
  let closed :=
    {| columns := header;
       rows := [Raw.mk (Some "Closed") (Some "Dr. B") (Some (IdNum 3))
                       (DText "not a date")] |} in
  let blank :=
    {| columns := header;
       rows := [Raw.mk (Some "In Progress") (Some "Dr. A") (Some (IdNum 1))
                       DBlank] |} in
  rejected (fun _ _ => None) [DText "not a date"] (DText "not a date") = true
  /\ run (fun _ _ => None) (100 * ns_per_day) 30 closed
     = Ok {| df_out := []; summary_df := []; pdf_output := empty_story 30 |}
  /\ exists rep,
       run (fun _ _ => None) (100 * ns_per_day) 30 blank = Ok rep
       /\ df_out rep = [Claim.mk (Some "Dr. A") (Some (IdNum 1)) None]
       /\ summary_df rep = [Summary.mk "Dr. A" 1 0].
Proof.
  split; [reflexivity |]. split; [reflexivity |].
  eexists. split; [vm_compute; reflexivity |]. split; reflexivity.
Qed.

(** C6, as amended.  If a row that the filter keeps has a timestamp text
    that the parser rejects, the run fails at [pd.to_datetime] and returns
    no report; the failure names the first such row, by its position among
    the kept rows, and its text.  If no kept row has such a text, whatever
    the dropped rows hold and whichever kept timestamps are blank, the run
    does not fail with a parse error. *)
Theorem C6_rejected_timestamp_of_a_kept_row_fails_the_run
    (parse : list date_cell -> string -> option Z)
    (clock pending_threshold : Z) (uploaded_file df' : DataFrame) :
  let col := map Raw.last_updated_at (rows df') in
  let outcome := run parse clock pending_threshold uploaded_file in
  filter_in_progress (strip_columns uploaded_file) = Ok df' ->
  has_column (strip_columns uploaded_file) "last_updated_at" = true ->
  ((exists s, In (DText s) col /\ parse col s = None) ->
   exists position s,
     outcome = Err (DateParseError position s)
     /\ nth_error col position = Some (DText s)
     /\ parse col s = None
     /\ existsb (rejected parse col) (firstn position col) = false)
  /\ (existsb (rejected parse col) col = false ->
      forall position s, outcome <> Err (DateParseError position s)).
Proof.
  intros col outcome Hf Hl.
  assert (Hrun : outcome
                 = (stamps <- to_datetime parse col ;;
                    df <- select_columns df' (days_since clock stamps) ;;
                    let df := sort_values df in
                    let summary := aggregate pending_threshold df in
                    Ok {| df_out := df;
                          summary_df := summary;
                          pdf_output :=
                            generate_pdf pending_threshold df summary |})).
  { unfold outcome, run. rewrite Hf. cbn [bind].
    destruct (filter_in_progress_ok _ _ Hf) as [_ [Hc _]].
    unfold getitem. rewrite (has_column_columns _ _ _ Hc), Hl. reflexivity. }
  split.
  - intros [s [Hin Hs]].
    assert (Hr : existsb (rejected parse col) col = true).
    { apply existsb_exists. exists (DText s). split; [exact Hin |].
      simpl. now rewrite Hs. }
    destruct (to_datetime_from_err parse col 0 col Hr)
      as [k [t [E [Hn [P F]]]]].
    exists k, t. split; [| now repeat split].
    rewrite Hrun. unfold to_datetime. rewrite E. reflexivity.
  - intros Hr position s. rewrite Hrun. unfold to_datetime.
    rewrite (to_datetime_from_ok _ _ _ _ Hr). cbn [bind].
    destruct (select_columns df' _) as [kept | e] eqn:Hk.
    + cbn [bind]. discriminate.
    + cbn [bind]. unfold select_columns in Hk.
      destruct (filter _ _) in Hk; [discriminate |].
      inversion Hk. discriminate.
Qed.

(** A witness of C6: the only claim in progress has an unreadable date. *)
Lemma C6_witness :
  let sheet :=
    {| columns := ["claim_id"; "assigned_to_doctor"; "claimStatus";
                   "last_updated_at"];
       rows := [Raw.mk (Some "In Progress") (Some "Dr. A") (Some (IdNum 1))
                       (DText "not a date")] |} in
  exists position s,
    run (fun _ _ => None) (100 * ns_per_day) 30 sheet
    = Err (DateParseError position s).
Proof.
  intro sheet.
  destruct (proj1 (C6_rejected_timestamp_of_a_kept_row_fails_the_run
              (fun _ _ => None) (100 * ns_per_day) 30 sheet sheet
              eq_refl eq_refl)
              (ex_intro _ "not a date" (conj (or_introl eq_refl) eq_refl)))
    as [position [s [H _]]].
  exists position, s. exact H.
Defined.

(** ** Missing columns *)

Section MissingColumns.

Variable parse : list date_cell -> string -> option Z.
Variables clock pending_threshold : Z.
Variable uploaded_file : DataFrame.

Let df := strip_columns uploaded_file.

Lemma run_without_status :
  has_column df "claimStatus" = false ->
  run parse clock pending_threshold uploaded_file
  = Err (KeyError ["claimStatus"]).
Proof.
  intro H. unfold run, filter_in_progress, getitem. fold df. now rewrite H.
Qed.

Lemma run_filter_fails (e : error) :
  filter_in_progress df = Err e ->
  run parse clock pending_threshold uploaded_file = Err e.
Proof. intro H. unfold run. fold df. now rewrite H. Qed.

Lemma run_without_timestamps (df' : DataFrame) :
  filter_in_progress df = Ok df' ->
  has_column df "last_updated_at" = false ->
  run parse clock pending_threshold uploaded_file
  = Err (KeyError ["last_updated_at"]).
Proof.
  intros Hf H. unfold run. fold df. rewrite Hf. cbn [bind].
  destruct (filter_in_progress_ok _ _ Hf) as [_ [Hc _]].
  unfold getitem. now rewrite (has_column_columns _ _ _ Hc), H.
Qed.

Lemma run_without_kept_columns (df' : DataFrame) :
  filter_in_progress df = Ok df' ->
  has_column df "last_updated_at" = true ->
  existsb (rejected parse (map Raw.last_updated_at (rows df')))
          (map Raw.last_updated_at (rows df')) = false ->
  missing_kept df <> [] ->
  run parse clock pending_threshold uploaded_file
  = Err (KeyError (missing_kept df)).
Proof.
  intros Hf Hl Hr Hm. unfold run. fold df. rewrite Hf. cbn [bind].
  destruct (filter_in_progress_ok _ _ Hf) as [_ [Hc _]].
  unfold getitem. rewrite (has_column_columns _ _ _ Hc), Hl. cbn [bind].
  unfold to_datetime. rewrite (to_datetime_from_ok _ _ _ _ Hr). cbn [bind].
  unfold select_columns.
  replace (filter (fun label => negb (has_column df' label))
                  ["assigned_to_doctor"; "claim_id"])
    with (missing_kept df).
  - destruct (missing_kept df); [congruence | reflexivity].
  - unfold missing_kept. cbn [filter].
    now rewrite !(has_column_columns _ _ _ Hc).
Qed.

Lemma run_with_a_missing_column_fails :
  has_column df "claimStatus" = false
  \/ has_column df "last_updated_at" = false
  \/ missing_kept df <> [] ->
  exists e, run parse clock pending_threshold uploaded_file = Err e.
Proof.
  intro H.
  destruct (has_column df "claimStatus") eqn:Hs;
    [| eexists; apply run_without_status; exact Hs].
  destruct (filter_in_progress df) as [df' | e] eqn:Hf;
    [| exists e; apply run_filter_fails; exact Hf].
  destruct (has_column df "last_updated_at") eqn:Hl;
    [| eexists; apply (run_without_timestamps df'); [exact Hf | exact Hl]].
  destruct (existsb (rejected parse (map Raw.last_updated_at (rows df')))
                    (map Raw.last_updated_at (rows df'))) eqn:Hr.
  - destruct (to_datetime_from_err parse _ 0 _ Hr) as [k [s [E _]]].
    exists (DateParseError (0 + k) s).
    unfold run. fold df. rewrite Hf. cbn [bind].
    destruct (filter_in_progress_ok _ _ Hf) as [_ [Hc _]].
    unfold getitem. rewrite (has_column_columns _ _ _ Hc), Hl. cbn [bind].
    unfold to_datetime. now rewrite E.
  - eexists. apply (run_without_kept_columns df'); try assumption.
    destruct H as [H | [H | H]]; [discriminate | discriminate | exact H].
Qed.

End MissingColumns.

(** C7, counterexample.  The sheet has no [claim_id] column, and the one
    claim in progress has a timestamp that the parser rejects.  The columns
    kept at line 45 are looked up after [pd.to_datetime] has run, so the run
    fails with the parse error, which names no column. *)
Lemma C7_parse_error_hides_the_missing_column :
  let sheet :=
    {| columns := ["assigned_to_doctor"; "claimStatus"; "last_updated_at"];
       rows := [Raw.mk (Some "In Progress") (Some "Dr. A") None
                       (DText "not a date")] |} in
  has_column (strip_columns sheet) "claim_id" = false
  /\ run (fun _ _ => None) (100 * ns_per_day) 30 sheet
     = Err (DateParseError 0 "not a date").
Proof. split; reflexivity. Qed.

(** C7, as amended.  If one of the four required columns is missing after
    the header labels are trimmed, the run fails and returns no report.
    A missing [claimStatus] is reported first, by a [KeyError] that names it,
    before any row is processed.  A missing [last_updated_at] is reported, by
    a [KeyError] that names it, once the filter has returned.  A missing
    [assigned_to_doctor] or [claim_id] is reported, by a [KeyError] that names
    the missing ones, once the filter has returned and the timestamps of the
    kept rows have been converted. *)
Theorem C7_missing_column_fails_the_run
    (parse : list date_cell -> string -> option Z)
    (clock pending_threshold : Z) (uploaded_file : DataFrame) :
  let df := strip_columns uploaded_file in
  let outcome := run parse clock pending_threshold uploaded_file in
  has_column df "claimStatus" = false
  \/ has_column df "last_updated_at" = false
  \/ missing_kept df <> [] ->
  (exists e, outcome = Err e)
  /\ (has_column df "claimStatus" = false ->
      outcome = Err (KeyError ["claimStatus"]))
  /\ (forall df',
        filter_in_progress df = Ok df' ->
        has_column df "last_updated_at" = false ->
        outcome = Err (KeyError ["last_updated_at"]))
  /\ (forall df',
        filter_in_progress df = Ok df' ->
        has_column df "last_updated_at" = true ->
        existsb (rejected parse (map Raw.last_updated_at (rows df')))
                (map Raw.last_updated_at (rows df')) = false ->
        missing_kept df <> [] ->
        outcome = Err (KeyError (missing_kept df))).
Proof.
  intros df outcome H. split; [| split; [| split]].
  - now apply run_with_a_missing_column_fails.
  - apply run_without_status.
  - apply run_without_timestamps.
  - apply run_without_kept_columns.
Qed.

(** A witness of C7: a sheet without the [claim_id] column. *)
Lemma C7_witness :
  let sheet :=
    {| columns := ["assigned_to_doctor"; " claimStatus"; "last_updated_at "];
       rows := [Raw.mk (Some "In Progress") (Some "Dr. A") None
                       (DStamp (60 * ns_per_day))] |} in
  run (fun _ _ => None) (100 * ns_per_day) 30 sheet
  = Err (KeyError ["claim_id"]).
Proof.
  intro sheet.
  assert (M : missing_kept (strip_columns sheet) <> []) by discriminate.
  exact (proj2 (proj2 (proj2
           (C7_missing_column_fails_the_run (fun _ _ => None)
              (100 * ns_per_day) 30 sheet (or_intror (or_intror M)))))
           (strip_columns sheet) eq_refl eq_refl eq_refl M).
Defined.

(** ** The scenario of the specification *)

(** Claims 1 and 2 of "Dr. A" in progress, updated 40 and 5 days ago, claim
    3 of "Dr. B" closed, threshold 30: claim 3 is left out, the summary of
    "Dr. A" counts two claims of which one is overdue, and the detail table
    lists claim 1, marked and highlighted, before claim 2. *)
Example scenario_of_the_specification :
  let sheet :=
    {| columns := ["claim_id"; "assigned_to_doctor"; "claimStatus";
                   "last_updated_at"];
       rows := [Raw.mk (Some "In Progress") (Some "Dr. A") (Some (IdNum 1))
                       (DStamp (60 * ns_per_day));
                Raw.mk (Some "In Progress") (Some "Dr. A") (Some (IdNum 2))
                       (DStamp (95 * ns_per_day));
                Raw.mk (Some "Closed") (Some "Dr. B") (Some (IdNum 3))
                       (DStamp (10 * ns_per_day))] |} in
  exists rep,
    run (fun _ _ => None) (100 * ns_per_day) 30 sheet = Ok rep
    /\ df_out rep = [Claim.mk (Some "Dr. A") (Some (IdNum 1)) (Some 40);
                     Claim.mk (Some "Dr. A") (Some (IdNum 2)) (Some 5)]
    /\ summary_df rep = [Summary.mk "Dr. A" 2 1]
    /\ nth 1 (tables (pdf_output rep)) []
       = [[CStr "Claim ID"; CStr "Days since updated"];
          [CId (Some (IdNum 1)); CStr ("40 " ++ marker)];
          [CId (Some (IdNum 2)); CInt 5]].
Proof.
  intro sheet. eexists. split; [vm_compute; reflexivity |].
  repeat split; reflexivity.
Qed.

(** ** The day count *)

Lemma dt_days_calendar (clock t : Z) :
  dt_days (Some (today clock - t)) = Some (calendar_days clock t).
Proof.
  unfold dt_days, today, calendar_days, option_map. f_equal.
  assert (D : 0 < ns_per_day) by reflexivity.
  pose proof (Z.div_mod t ns_per_day ltac:(lia)) as E.
  pose proof (Z.mod_pos_bound t ns_per_day D) as B.
  set (q := t / ns_per_day) in *. set (m := t mod ns_per_day) in *.
  set (c := clock / ns_per_day).
  destruct (Z.eqb_spec m 0) as [Z0 | NZ].
  - symmetry. apply (Z.div_unique _ _ _ 0); lia.
  - symmetry. apply (Z.div_unique _ _ _ (ns_per_day - m)); lia.
Qed.

(** X1.  Line 43 does not drop the time of day of the timestamp: the day
    count is the number of days from the date of the timestamp to today,
    less one when the timestamp is not at midnight; a blank timestamp gives
    no day count. *)
Theorem X1_days_since_counts_whole_days
    (clock : Z) (stamps : list (option Z)) :
  days_since clock stamps = map (option_map (calendar_days clock)) stamps.
Proof.
  unfold days_since. apply map_ext. intros [t |]; [| reflexivity].
  apply dt_days_calendar.
Qed.



(** ** The run, step by step *)

(** The run written out on the uploaded sheet: what each line looks up and
    in which order it can fail. *)
Lemma run_unfold (parse : list date_cell -> string -> option Z)
    (clock pending_threshold : Z) (uploaded_file : DataFrame) :
  let df := strip_columns uploaded_file in
  run parse clock pending_threshold uploaded_file
  = if has_column df "claimStatus" then
      lowered <- str_lower (map Raw.claimStatus (rows uploaded_file)) ;;
      let kept := boolean_index (rows uploaded_file)
                    (series_eq "in progress" lowered) in
      if has_column df "last_updated_at" then
        stamps <- to_datetime parse (map Raw.last_updated_at kept) ;;
        match missing_kept df with
        | [] =>
            Ok (report_of pending_threshold
                  (sort_values
                     (map enrich (combine kept (days_since clock stamps)))))
        | missing => Err (KeyError missing)
        end
      else Err (KeyError ["last_updated_at"])
    else Err (KeyError ["claimStatus"]).
Proof.
  intro df. unfold run, filter_in_progress, getitem. fold df.
  destruct (has_column df "claimStatus"); [| reflexivity].
  cbn [bind]. change (rows df) with (rows uploaded_file).
  destruct (str_lower (map Raw.claimStatus (rows uploaded_file)))
    as [lowered | e]; [| reflexivity].
  cbn [bind]. unfold has_column at 1. cbn [columns rows].
  change (existsb (String.eqb "last_updated_at") (columns df))
    with (has_column df "last_updated_at").
  destruct (has_column df "last_updated_at"); [| reflexivity].
  cbn [bind].
  destruct (to_datetime parse _) as [stamps | e]; [| reflexivity].
  cbn [bind]. unfold select_columns, missing_kept, has_column.
  cbn [columns rows].
  destruct (filter _ _); reflexivity.
Qed.

Lemma missing_kept_agree (df1 df2 : DataFrame) :
  (forall label, In label required_columns ->
     has_column df1 label = has_column df2 label) ->
  missing_kept df1 = missing_kept df2.
Proof.
  intro H. unfold missing_kept. cbn [filter].
  rewrite (H "assigned_to_doctor"), (H "claim_id");
    [reflexivity | |]; simpl; auto.
Qed.

(** ** Trimming the header *)

Section StripHead.

Variable sp1 : ascii -> bool.
Variable sp2 : ascii -> ascii -> bool.
Variable sp3 : ascii -> ascii -> ascii -> bool.

Let H := PyStr.strip_head sp1 sp2 sp3.
Let lead := leading sp1 sp2 sp3.

(** What is taken off is a prefix: the result is an end of the list. *)
Lemma strip_head_suffix (l : list ascii) : exists x, l = (x ++ H l)%list.
Proof.
  remember (List.length l) as n eqn:Hn. revert l Hn.
  induction n as [n IH] using lt_wf_ind. intros l Hn.
  destruct l as [| c l1]; [now exists [] |].
  unfold H. cbn [PyStr.strip_head]. fold H.
  destruct (sp1 c).
  { destruct (IH (List.length l1)) with (l := l1) as [x E];
      [subst; simpl; lia | reflexivity |].
    exists (c :: x). simpl. now rewrite <- E. }
  destruct l1 as [| d l2]; [now exists [] |].
  destruct (sp2 c d).
  { destruct (IH (List.length l2)) with (l := l2) as [x E];
      [subst; simpl; lia | reflexivity |].
    exists (c :: d :: x). simpl. now rewrite <- E. }
  destruct l2 as [| e l3]; [now exists [] |].
  destruct (sp3 c d e); [| now exists []].
  destruct (IH (List.length l3)) with (l := l3) as [x E];
    [subst; simpl; lia | reflexivity |].
  exists (c :: d :: e :: x). simpl. now rewrite <- E.
Qed.

(** The result has no whitespace at its head. *)
Lemma strip_head_clean (l : list ascii) : lead (H l) = false.
Proof.
  remember (List.length l) as n eqn:Hn. revert l Hn.
  induction n as [n IH] using lt_wf_ind. intros l Hn.
  destruct l as [| c l1]; [reflexivity |].
  unfold H. cbn [PyStr.strip_head]. fold H.
  destruct (sp1 c) eqn:E1.
  { apply (IH (List.length l1)); [subst; simpl; lia | reflexivity]. }
  destruct l1 as [| d l2].
  { unfold lead. simpl. now rewrite E1. }
  destruct (sp2 c d) eqn:E2.
  { apply (IH (List.length l2)); [subst; simpl; lia | reflexivity]. }
  destruct l2 as [| e l3].
  { unfold lead. simpl. now rewrite E1, E2. }
  destruct (sp3 c d e) eqn:E3.
  { apply (IH (List.length l3)); [subst; simpl; lia | reflexivity]. }
  unfold lead. simpl. now rewrite E1, E2, E3.
Qed.

(** A list without whitespace at its head is left as it is. *)
Lemma strip_head_fixed (l : list ascii) : lead l = false -> H l = l.
Proof.
  unfold lead, H. destruct l as [| c [| d [| e l3]]]; simpl; intro E.
  - reflexivity.
  - apply orb_false_iff in E. destruct E as [E1 _]. now rewrite E1.
  - apply orb_false_iff in E. destruct E as [E1 E].
    apply orb_false_iff in E. destruct E as [E2 _]. now rewrite E1, E2.
  - apply orb_false_iff in E. destruct E as [E1 E].
    apply orb_false_iff in E. destruct E as [E2 E3]. now rewrite E1, E2, E3.
Qed.

(** So has every beginning of such a list. *)
Lemma leading_prefix (p q : list ascii) :
  lead (p ++ q)%list = false -> lead p = false.
Proof.
  unfold lead. destruct p as [| c [| d [| e p3]]]; simpl; intro E.
  - reflexivity.
  - apply orb_false_iff in E. destruct E as [E1 _]. now rewrite E1.
  - apply orb_false_iff in E. destruct E as [E1 E].
    destruct q; apply orb_false_iff in E; destruct E as [E2 _];
      now rewrite E1, E2.
  - exact E.
Qed.

Lemma strip_head_idempotent (l : list ascii) : H (H l) = H l.
Proof. apply strip_head_fixed, strip_head_clean. Qed.

End StripHead.

Lemma strip_bytes_idempotent (l : list ascii) :
  PyStr.rstrip_bytes (PyStr.lstrip_bytes
    (PyStr.rstrip_bytes (PyStr.lstrip_bytes l)))
  = PyStr.rstrip_bytes (PyStr.lstrip_bytes l).
Proof.
  set (a := PyStr.lstrip_bytes l).
  assert (Ca : leading PyStr.isspace PyStr.isspace2 PyStr.isspace3 a = false)
    by apply strip_head_clean.
  assert (P : exists y, a = (PyStr.rstrip_bytes a ++ y)%list).
  { unfold PyStr.rstrip_bytes.
    destruct (strip_head_suffix PyStr.isspace
                (fun c d => PyStr.isspace2 d c)
                (fun c d e => PyStr.isspace3 e d c) (rev a)) as [x E].
    exists (rev x). rewrite <- rev_app_distr, <- E. now rewrite rev_involutive. }
  destruct P as [y P].
  assert (F : PyStr.lstrip_bytes (PyStr.rstrip_bytes a) = PyStr.rstrip_bytes a).
  { apply strip_head_fixed. apply (leading_prefix _ _ _ _ y).
    now rewrite <- P. }
  rewrite F. unfold PyStr.rstrip_bytes at 1 2.
  now rewrite rev_involutive, strip_head_idempotent.
Qed.

Lemma strip_idempotent (s : string) :
  PyStr.strip (PyStr.strip s) = PyStr.strip s.
Proof.
  unfold PyStr.strip, PyStr.lstrip, PyStr.rstrip.
  rewrite !list_ascii_of_string_of_list_ascii.
  now rewrite strip_bytes_idempotent.
Qed.

(** The whitespace that is trimmed is not only ASCII: a no-break space
    (U+00A0) after a label and an ideographic space (U+3000) before it go
    the way of blanks and tabs. *)
Example strip_unicode_whitespace :
  PyStr.strip (String (ascii_of_nat 227) (String (ascii_of_nat 128)
                 (String (ascii_of_nat 128) " claimStatus"))
               ++ String (ascii_of_nat 194) (String (ascii_of_nat 160) ""))
  = "claimStatus".
Proof. reflexivity. Qed.

Lemma has_column_strip_twice (df : DataFrame) (label : string) :
  has_column (strip_columns (strip_columns df)) label
  = has_column (strip_columns df) label.
Proof.
  unfold has_column, strip_columns. cbn [columns].
  rewrite map_map. f_equal. apply map_ext. intro s. apply strip_idempotent.
Qed.

(** X3.  Line 31 trims the header labels of the whitespace around them,
    ASCII or not, and trimming twice is trimming once: a sheet whose labels
    carry surrounding whitespace and the same sheet with its labels already
    trimmed give the same outcome. *)
Theorem X3_padded_header_labels_are_trimmed
    (parse : list date_cell -> string -> option Z)
    (clock pending_threshold : Z) (uploaded_file : DataFrame) :
  run parse clock pending_threshold uploaded_file
  = run parse clock pending_threshold (strip_columns uploaded_file).
Proof.
  rewrite !run_unfold. cbv zeta.
  rewrite !has_column_strip_twice.
  rewrite (missing_kept_agree (strip_columns (strip_columns uploaded_file))
             (strip_columns uploaded_file)).
  - reflexivity.
  - intros label _. apply has_column_strip_twice.
Qed.

(** ** When a run returns, and what *)

Lemma str_lower_inv (col lowered : list (option string)) :
  str_lower col = Ok lowered ->
  lowered = map (option_map PyStr.lower) col
  /\ (col = [] \/ existsb is_text col = true).
Proof.
  unfold str_lower. destruct col as [| v col].
  - intro H. inversion H. split; [reflexivity | now left].
  - destruct (existsb is_text (v :: col)) eqn:E; [| discriminate].
    intro H. inversion H. split; [reflexivity | now right].
Qed.

Lemma str_lower_returns (col : list (option string)) :
  col = [] \/ existsb is_text col = true ->
  str_lower col = Ok (map (option_map PyStr.lower) col).
Proof.
  unfold str_lower. destruct col as [| v col]; [reflexivity |].
  intros [H | H]; [discriminate | now rewrite H].
Qed.

Lemma to_datetime_inv (parse : list date_cell -> string -> option Z)
    (col : list date_cell) (stamps : list (option Z)) :
  to_datetime parse col = Ok stamps ->
  existsb (rejected parse col) col = false.
Proof.
  unfold to_datetime. intro H.
  destruct (existsb (rejected parse col) col) eqn:E; [| reflexivity].
  destruct (to_datetime_from_err parse col 0 col E) as [k [s [F _]]].
  rewrite F in H. discriminate.
Qed.

Lemma missing_kept_nil (df : DataFrame) :
  missing_kept df = [] <->
  has_column df "assigned_to_doctor" = true
  /\ has_column df "claim_id" = true.
Proof.
  unfold missing_kept. cbn [filter].
  destruct (has_column df "assigned_to_doctor");
    destruct (has_column df "claim_id"); simpl; split;
    try discriminate; try tauto; intros [? ?]; discriminate.
Qed.

Lemma enrich_combine (kept : list Raw.row) (f : Raw.row -> option Z) :
  map enrich (combine kept (map f kept))
  = map (fun r => enrich (r, f r)) kept.
Proof.
  induction kept as [| r kept IH]; simpl; [reflexivity |]. now rewrite IH.
Qed.

Lemma status_has_text (l : list Raw.row) :
  map Raw.claimStatus l = [] \/ existsb is_text (map Raw.claimStatus l) = true
  <-> l = [] \/ exists r s, In r l /\ Raw.claimStatus r = Some s.
Proof.
  rewrite existsb_is_text. split; intros [H | H]; auto; left.
  - now destruct l.
  - now subst.
Qed.

(** A run on a sheet that has its four columns, a readable status column
    and no rejected timestamp among the kept rows returns the report of the
    kept rows, processed and sorted. *)
Lemma run_report (parse : list date_cell -> string -> option Z)
    (clock pending_threshold : Z) (uploaded_file : DataFrame) :
  let df := strip_columns uploaded_file in
  let kept := filter is_in_progress (rows uploaded_file) in
  let col := map Raw.last_updated_at kept in
  (forall label, In label required_columns -> has_column df label = true) ->
  rows uploaded_file = []
  \/ (exists r s, In r (rows uploaded_file) /\ Raw.claimStatus r = Some s) ->
  existsb (rejected parse col) col = false ->
  run parse clock pending_threshold uploaded_file
  = Ok (report_of pending_threshold
          (sort_values (map (processed parse col clock) kept))).
Proof.
  intros df kept col Hc Ht Hr. rewrite run_unfold. cbv zeta. fold df.
  rewrite (Hc "claimStatus"), (Hc "last_updated_at"); [| simpl; auto ..].
  rewrite (str_lower_returns _ (proj2 (status_has_text _) Ht)). cbn [bind].
  rewrite boolean_index_status. fold kept. fold col.
  unfold to_datetime. rewrite (to_datetime_from_ok _ _ _ _ Hr). cbn [bind].
  assert (M : missing_kept df = []).
  { apply missing_kept_nil. split; apply Hc; simpl; auto. }
  rewrite M. do 3 f_equal.
  unfold days_since, col. rewrite !map_map, enrich_combine.
  apply map_ext. intro r. unfold enrich, processed. cbn [fst snd].
  f_equal. destruct (converted parse _ (Raw.last_updated_at r)) as [t |];
    [apply dt_days_calendar | reflexivity].
Qed.

(** A run that returns has found its four columns, a readable status
    column, and no rejected timestamp among the rows in progress. *)
Lemma run_ok_inv (parse : list date_cell -> string -> option Z)
    (clock pending_threshold : Z) (uploaded_file : DataFrame) (rep : report) :
  let df := strip_columns uploaded_file in
  let col := map Raw.last_updated_at
               (filter is_in_progress (rows uploaded_file)) in
  run parse clock pending_threshold uploaded_file = Ok rep ->
  (forall label, In label required_columns -> has_column df label = true)
  /\ (rows uploaded_file = []
      \/ exists r s, In r (rows uploaded_file) /\ Raw.claimStatus r = Some s)
  /\ existsb (rejected parse col) col = false.
Proof.
  intros df col H. rewrite run_unfold in H. cbv zeta in H. fold df in H.
  destruct (has_column df "claimStatus") eqn:A; [| discriminate].
  destruct (str_lower (map Raw.claimStatus (rows uploaded_file)))
    as [lowered | e] eqn:L; [| discriminate].
  apply str_lower_inv in L. destruct L as [-> B].
  cbn [bind] in H. rewrite boolean_index_status in H.
  destruct (has_column df "last_updated_at") eqn:C; [| discriminate].
  destruct (to_datetime parse _) as [stamps | e] eqn:T; [| discriminate].
  apply to_datetime_inv in T. cbn [bind] in H.
  destruct (missing_kept df) eqn:M; [| discriminate].
  apply missing_kept_nil in M. destruct M as [M1 M2].
  split; [| split].
  - intros label Hin. simpl in Hin.
    destruct Hin as [E | [E | [E | [E | []]]]]; subst; assumption.
  - now apply status_has_text.
  - exact T.
Qed.

(** X5.  A run returns a report only if the sheet has its four columns
    (labels trimmed), its status column holds a text or the sheet has no
    rows, and no row in progress has a timestamp text that the parser
    rejects.  In particular a sheet that has rows and no text in its status
    column fails at line 36, on the [.str] accessor, whatever its other
    columns hold. *)
Theorem X5_run_returns_only_if
    (parse : list date_cell -> string -> option Z)
    (clock pending_threshold : Z) (uploaded_file : DataFrame) :
  let df := strip_columns uploaded_file in
  let col := map Raw.last_updated_at
               (filter is_in_progress (rows uploaded_file)) in
  let outcome := run parse clock pending_threshold uploaded_file in
  ((exists rep, outcome = Ok rep) ->
   (forall label, In label required_columns -> has_column df label = true)
   /\ (rows uploaded_file = []
       \/ exists r s, In r (rows uploaded_file)
                      /\ Raw.claimStatus r = Some s)
   /\ existsb (rejected parse col) col = false)
  /\ (has_column df "claimStatus" = true ->
      rows uploaded_file <> [] ->
      (forall r, In r (rows uploaded_file) -> Raw.claimStatus r = None) ->
      outcome = Err AttributeError).
Proof.
  intros df col outcome. split.
  - intros [rep H]. exact (run_ok_inv _ _ _ _ _ H).
  - intros Hc Hr Hn. unfold outcome. rewrite run_unfold. cbv zeta.
    fold df. rewrite Hc. unfold str_lower.
    destruct (rows uploaded_file) as [| r l] eqn:E; [congruence |].
    cbn [map].
    assert (X : existsb is_text
                  (Raw.claimStatus r :: map Raw.claimStatus l) = false).
    { change (Raw.claimStatus r :: map Raw.claimStatus l)
        with (map Raw.claimStatus (r :: l)).
      destruct (existsb is_text (map Raw.claimStatus (r :: l))) eqn:T;
        [| reflexivity].
      apply existsb_is_text in T. destruct T as [r' [s [Hin Hs]]].
      rewrite (Hn r' Hin) in Hs. discriminate. }
    rewrite X. reflexivity.
Qed.

(** A witness of X5: a sheet whose one row has a blank status. *)
Lemma X5_witness :
  let sheet :=
    {| columns := ["claim_id"; "assigned_to_doctor"; "claimStatus";
                   "last_updated_at"];
       rows := [Raw.mk None (Some "Dr. B") (Some (IdNum 3))
                       (DStamp (10 * ns_per_day))] |} in
  run (fun _ _ => None) (100 * ns_per_day) 30 sheet = Err AttributeError.
Proof.
  intro sheet.
  apply (proj2 (X5_run_returns_only_if (fun _ _ => None)
                  (100 * ns_per_day) 30 sheet)).
  - reflexivity.
  - discriminate.
  - intros r H. simpl in H. destruct H as [H | []]. now subst.
Defined.

(** X6.  The frame a run returns holds one row per sheet row in progress,
    and nothing else: it is the sorted list of those rows, each with its
    doctor and claim id unchanged and the day count of its own timestamp.
    So it has as many rows as the sheet has rows in progress. *)
Theorem X6_processed_frame_is_the_kept_rows
    (parse : list date_cell -> string -> option Z)
    (clock pending_threshold : Z) (uploaded_file : DataFrame) (rep : report) :
  let kept := filter is_in_progress (rows uploaded_file) in
  let col := map Raw.last_updated_at kept in
  run parse clock pending_threshold uploaded_file = Ok rep ->
  df_out rep = sort_values (map (processed parse col clock) kept)
  /\ Permutation (map (processed parse col clock) kept) (df_out rep)
  /\ List.length (df_out rep) = List.length kept.
Proof.
  intros kept col H.
  assert (E : df_out rep = sort_values (map (processed parse col clock) kept)).
  { destruct (run_ok_inv _ _ _ _ _ H) as [Hc [Ht Hr]].
    rewrite (run_report _ _ _ _ Hc Ht Hr) in H. now inversion H. }
  split; [exact E |]. split.
  - rewrite E. apply sort_values_perm.
  - rewrite E, <- (Permutation_length (sort_values_perm _)).
    apply length_map.
Qed.

(** A witness of X6: one row in progress, one closed. *)
Lemma X6_witness :
  let sheet :=
    {| columns := ["claim_id"; "assigned_to_doctor"; "claimStatus";
                   "last_updated_at"];
       rows := [Raw.mk (Some "In Progress") (Some "Dr. A") (Some (IdNum 1))
                       (DStamp (60 * ns_per_day));
                Raw.mk (Some "Closed") (Some "Dr. B") (Some (IdNum 3))
                       (DStamp (10 * ns_per_day))] |} in
  let rep := report_of 30 [Claim.mk (Some "Dr. A") (Some (IdNum 1)) (Some 40)] in
  List.length (df_out rep)
  = List.length (filter is_in_progress (rows sheet)).
Proof.
  intros sheet rep.
  exact (proj2 (proj2 (X6_processed_frame_is_the_kept_rows
           (fun _ _ => None) (100 * ns_per_day) 30 sheet rep eq_refl))).
Defined.

(** ** The order inside a detail table *)

Lemma StronglySorted_filter_weaken {A : Type} (R R' : A -> A -> Prop)
    (f : A -> bool) (l : list A) :
  (forall a b, f a = true -> f b = true -> R a b -> R' a b) ->
  StronglySorted R l -> StronglySorted R' (filter f l).
Proof.
  intros W S. induction S as [| a l S IH F]; simpl; [constructor |].
  destruct (f a) eqn:Fa; [| exact IH].
  constructor; [exact IH |].
  rewrite Forall_forall in *. intros b Hb.
  apply filter_In in Hb. destruct Hb as [Hb Fb].
  apply W; auto.
Qed.

Lemma row_le_same_doctor (k : string) (a b : Claim.row) :
  in_group k a = true -> in_group k b = true -> row_le a b -> days_le a b.
Proof.
  unfold in_group, row_le, row_leb, row_cmp, lex, sort_key, days_le.
  cbn [fst snd].
  destruct (Claim.assigned_to_doctor a) as [da |]; [| discriminate].
  destruct (Claim.assigned_to_doctor b) as [db |]; [| discriminate].
  rewrite !String.eqb_eq. intros -> ->.
  unfold doctor_cmp. cbn [none_last]. rewrite (cmp_refl _ string_order).
  destruct (days_cmp _ _); congruence.
Qed.

(** X7.  In every detail table the claims of the doctor stand in the order
    of the sorted frame, by day count descending: each row has a day count
    at least that of every row below it, and rows without a day count come
    last. *)
Theorem X7_detail_rows_descend_by_days
    (l : list Claim.row) (g : string * list Claim.row) :
  In g (groupby (sort_values l)) ->
  StronglySorted days_le (snd g)
  /\ (forall a b x y,
        Claim.days_since_updated a = Some x ->
        Claim.days_since_updated b = Some y ->
        days_le a b -> y <= x)
  /\ (forall a b,
        Claim.days_since_updated a = None ->
        days_le a b -> Claim.days_since_updated b = None).
Proof.
  intro H. unfold groupby in H. apply in_map_iff in H.
  destruct H as [k [E _]]. subst g. cbn [snd]. split; [| split].
  - apply (StronglySorted_filter_weaken row_le days_le).
    + apply row_le_same_doctor.
    + apply sort_values_sorted.
  - unfold days_le, days_cmp. intros a b x y -> ->. cbn [none_last].
    destruct (Z.compare_spec y x); [lia | lia | congruence].
  - unfold days_le, days_cmp. intros a b ->.
    destruct (Claim.days_since_updated b); cbn [none_last];
      [congruence | reflexivity].
Qed.

(** A witness of X7: the table of "Dr. A" for day counts 5 and 40. *)
Lemma X7_witness :
  let a := Claim.mk (Some "Dr. A") (Some (IdNum 2)) (Some 5) in
  let b := Claim.mk (Some "Dr. A") (Some (IdNum 1)) (Some 40) in
  StronglySorted days_le [b; a].
Proof.
  intros a b.
  exact (proj1 (X7_detail_rows_descend_by_days [a; b] ("Dr. A", [b; a])
                  (or_introl eq_refl))).
Defined.

(** ** Summary and detail agree *)

Lemma paint_flags_length (i : Z) (flags : list bool) :
  List.length (paint_flags i flags)
  = List.length (filter (fun b : bool => b) flags).
Proof.
  revert i. induction flags as [| b flags IH]; intro i; [reflexivity |].
  cbn [paint_flags filter]. rewrite length_app, IH.
  now destruct b.
Qed.

(** X8.  For every doctor the number of rows painted in the detail table
    is the [overdue_claims] of the summary row of that doctor: the summary
    and the detail tables never disagree on how many claims are overdue. *)
Theorem X8_painted_rows_match_overdue_claims
    (pending_threshold : Z) (is_float : bool) (df : list Claim.row)
    (n : nat) (s : Summary.row) (g : string * list Claim.row) :
  nth_error (aggregate pending_threshold df) n = Some s ->
  nth_error (groupby df) n = Some g ->
  Summary.assigned_to_doctor s = fst g
  /\ Z.of_nat (List.length
       (highlight 1 (map (detail_row pending_threshold is_float) (snd g))))
     = Summary.overdue_claims s.
Proof.
  unfold aggregate. rewrite nth_error_map. intros Hs Hg.
  rewrite Hg in Hs. cbn [option_map] in Hs. inversion Hs; subst s; clear Hs.
  cbn [Summary.assigned_to_doctor Summary.overdue_claims].
  split; [reflexivity |].
  rewrite highlight_paint, paint_flags_length. unfold sum_gt.
  now rewrite map_map.
Qed.

(** A witness of X8: the first doctor of a frame with one overdue claim. *)
Lemma X8_witness :
  let df := [Claim.mk (Some "Dr. A") (Some (IdNum 1)) (Some 40);
             Claim.mk (Some "Dr. A") (Some (IdNum 2)) (Some 5)] in
  Z.of_nat (List.length (highlight 1 (map (detail_row 30 false) df))) = 1.
Proof.
  intro df.
  exact (proj2 (X8_painted_rows_match_overdue_claims 30 false df 0
                  (Summary.mk "Dr. A" 2 1) ("Dr. A", df) eq_refl eq_refl)).
Defined.

(** ** The tables of the story *)

Lemma detail_section_rectangular (pending_threshold : Z) (is_float : bool)
    (g : string * list Claim.row) :
  Forall rectangular (detail_section pending_threshold is_float g).
Proof.
  unfold detail_section. repeat constructor; try discriminate.
  apply Forall_forall. intros row H. apply in_map_iff in H.
  destruct H as [r [E _]]. subst row. unfold detail_row.
  now destruct (gt (Claim.days_since_updated r) pending_threshold).
Qed.

(** X9.  Every table handed to reportlab is well formed: it has its header
    row, and each of its rows has exactly one value per column (three in the
    summary table, two in a detail table).  So line 126 always finds the
    second value of a row. *)
Theorem X9_tables_are_rectangular
    (pending_threshold : Z) (dataframe : list Claim.row)
    (summarydata : list Summary.row) :
  Forall rectangular (generate_pdf pending_threshold dataframe summarydata).
Proof.
  unfold generate_pdf. apply Forall_app. split.
  - repeat constructor; try discriminate.
    apply Forall_forall. intros row H. apply in_map_iff in H.
    destruct H as [s [E _]]. now subst row.
  - apply Forall_flat_map. apply Forall_forall. intros g _.
    apply detail_section_rectangular.
Qed.

Lemma highlight_rows (start : Z) (body : list (list cell)) (c : style_cmd) :
  In c (highlight start body) ->
  exists i, c = BACKGROUND (0, i) (-1, i) lightpink
            /\ start <= i < start + Z.of_nat (List.length body).
Proof.
  revert start. induction body as [| row body IH]; intros start H.
  - contradiction.
  - cbn [highlight] in H. apply in_app_or in H. destruct H as [H | H].
    + destruct (row_is_marked row); [| contradiction].
      destruct H as [H | []]. exists start. split; [now subst |].
      cbn [List.length]. lia.
    + destruct (IH _ H) as [i [E B]]. exists i. split; [exact E |].
      cbn [List.length]. lia.
Qed.

(** X10.  The commands that lines 125-127 add to the style of a detail
    table each paint one whole row in light pink, and that row is a row of
    the body of the table: the header row, numbered 0, is never painted, and
    no command points below the last row. *)
Theorem X10_painted_rows_are_body_rows
    (pending_threshold : Z) (is_float : bool) (g : list Claim.row)
    (c : style_cmd) :
  In c (highlight 1 (map (detail_row pending_threshold is_float) g)) ->
  exists i, painted_row c = Some i
            /\ 1 <= i <= Z.of_nat (List.length g)
            /\ c = BACKGROUND (0, i) (-1, i) lightpink.
Proof.
  intro H. destruct (highlight_rows _ _ _ H) as [i [E B]].
  rewrite length_map in B. exists i. split; [| split; [lia | exact E]].
  subst c. cbn [painted_row]. now rewrite Z.eqb_refl.
Qed.

(** A witness of X10: the one command of a one-row table. *)
Lemma X10_witness :
  exists i, painted_row (BACKGROUND (0, 1) (-1, 1) lightpink) = Some i
            /\ 1 <= i <= 1.
Proof.
  destruct (X10_painted_rows_are_body_rows 30 false
              [Claim.mk (Some "Dr. A") (Some (IdNum 1)) (Some 40)]
              (BACKGROUND (0, 1) (-1, 1) lightpink) (or_introl eq_refl))
    as [i [P [B _]]].
  exists i. split; [exact P | exact B].
Defined.

(** ** Groups and the order of the rows *)

Lemma sorted_keys_unique (l1 l2 : list string) :
  StronglySorted String_as_OT.lt l1 -> StronglySorted String_as_OT.lt l2 ->
  (forall k, In k l1 <-> In k l2) -> l1 = l2.
Proof.
  intro S1. revert l2.
  induction S1 as [| a l1 S1 IH F1]; intros l2 S2 H.
  - destruct l2 as [| b l2]; [reflexivity |].
    destruct (proj2 (H b) (or_introl eq_refl)).
  - destruct S2 as [| b l2 S2 F2].
    + destruct (proj1 (H a) (or_introl eq_refl)).
    + rewrite Forall_forall in F1, F2.
      assert (E : a = b).
      { destruct (proj1 (H a) (or_introl eq_refl)) as [E | Ha]; [auto |].
        destruct (proj2 (H b) (or_introl eq_refl)) as [E | Hb]; [auto |].
        exfalso. apply (str_lt_irrefl a).
        exact (str_lt_trans _ _ _ (F1 _ Hb) (F2 _ Ha)). }
      subst b. f_equal. apply IH; [exact S2 |].
      intro k. split; intro Hk.
      * destruct (proj1 (H k) (or_intror Hk)) as [E | Hk']; [| exact Hk'].
        subst k. exfalso. exact (str_lt_irrefl _ (F1 _ Hk)).
      * destruct (proj2 (H k) (or_intror Hk)) as [E | Hk']; [| exact Hk'].
        subst k. exfalso. exact (str_lt_irrefl _ (F2 _ Hk)).
Qed.

Lemma group_keys_perm (l1 l2 : list Claim.row) :
  Permutation l1 l2 -> group_keys l1 = group_keys l2.
Proof.
  intro P. apply sorted_keys_unique; try apply group_keys_sorted.
  intro k. rewrite !group_keys_In. split; intros [r [Hin E]]; exists r;
    split; auto.
  - exact (Permutation_in _ P Hin).
  - exact (Permutation_in _ (Permutation_sym P) Hin).
Qed.

Lemma filter_length_perm {A : Type} (f : A -> bool) (l1 l2 : list A) :
  Permutation l1 l2 ->
  List.length (filter f l1) = List.length (filter f l2).
Proof.
  intro P. induction P as [| x l1 l2 P IH | x y l | l1 l2 l3 P1 IH1 P2 IH2];
    simpl.
  - reflexivity.
  - destruct (f x); simpl; now rewrite IH.
  - destruct (f x); destruct (f y); reflexivity.
  - now rewrite IH1.
Qed.

Lemma filter_map_length {A B : Type} (h : A -> B) (p : B -> bool)
    (f : A -> bool) (l : list A) :
  List.length (filter p (map h (filter f l)))
  = List.length (filter (fun x => f x && p (h x)) l).
Proof.
  induction l as [| x l IH]; simpl; [reflexivity |].
  destruct (f x); simpl; [| exact IH].
  destruct (p (h x)); simpl; now rewrite IH.
Qed.

(** X11.  The summary frame does not depend on the order of the rows: two
    frames that hold the same rows, in any order, have the same summary,
    doctor by doctor.  In particular sorting the frame at line 47 does not
    change what the summary shows. *)
Theorem X11_summary_ignores_row_order
    (pending_threshold : Z) (l1 l2 : list Claim.row) :
  Permutation l1 l2 ->
  aggregate pending_threshold l1 = aggregate pending_threshold l2.
Proof.
  intro P. unfold aggregate, groupby.
  rewrite !map_map, (group_keys_perm _ _ P).
  apply map_ext. intro k. cbn [fst snd]. f_equal.
  - unfold count. f_equal. rewrite !filter_map_length.
    now apply filter_length_perm.
  - unfold sum_gt. f_equal. rewrite !map_map.
    rewrite !(filter_map_length
                (fun r => gt (Claim.days_since_updated r) pending_threshold)
                (fun b : bool => b)).
    now apply filter_length_perm.
Qed.

(** A witness of X11: two rows in either order. *)
Lemma X11_witness :
  let a := Claim.mk (Some "Dr. A") (Some (IdNum 1)) (Some 40) in
  let b := Claim.mk (Some "Dr. B") (Some (IdNum 3)) (Some 90) in
  aggregate 30 [b; a] = aggregate 30 [a; b].
Proof.
  intros a b.
  apply (X11_summary_ignores_row_order 30 [b; a] [a; b]).
  apply perm_swap.
Defined.

(** ** Every claim with a doctor is listed once *)

Lemma in_group_key (k : string) (r : Claim.row) :
  in_group k r = true <-> Claim.assigned_to_doctor r = Some k.
Proof.
  unfold in_group. destruct (Claim.assigned_to_doctor r) as [d |].
  - rewrite String.eqb_eq. split; congruence.
  - split; discriminate.
Qed.

Lemma groups_length_step (k : string) (keys : list string)
    (df : list Claim.row) :
  (forall k', In k' keys -> String_as_OT.lt k k') ->
  (List.length (filter (in_group k) df)
   + List.length (filter (in_groups keys) df))%nat
  = List.length (filter (in_groups (k :: keys)) df).
Proof.
  intro F. induction df as [| r df IH]; [reflexivity |].
  cbn [filter].
  change (in_groups (k :: keys) r) with (in_group k r || in_groups keys r).
  destruct (in_group k r) eqn:Gk; cbn [orb].
  - assert (N : in_groups keys r = false).
    { destruct (in_groups keys r) eqn:E; [| reflexivity].
      apply existsb_exists in E. destruct E as [k' [Hin Gk']].
      apply in_group_key in Gk. apply in_group_key in Gk'.
      assert (k' = k) by congruence. subst k'.
      exfalso. exact (str_lt_irrefl _ (F _ Hin)). }
    rewrite N. cbn [List.length]. now rewrite <- IH.
  - destruct (in_groups keys r); cbn [List.length]; rewrite <- IH; lia.
Qed.

Lemma groups_length (keys : list string) (df : list Claim.row) :
  StronglySorted String_as_OT.lt keys ->
  List.length (flat_map (fun k => filter (in_group k) df) keys)
  = List.length (filter (in_groups keys) df).
Proof.
  intro S. induction S as [| k keys S IH F].
  - simpl. induction df as [| r df IHdf]; [reflexivity | exact IHdf].
  - cbn [flat_map]. rewrite length_app, IH.
    apply groups_length_step. now rewrite Forall_forall in F.
Qed.

Lemma in_groups_keys (df : list Claim.row) (r : Claim.row) :
  In r df -> in_groups (group_keys df) r = has_doctor r.
Proof.
  intro Hin. unfold in_groups, has_doctor, notna.
  destruct (Claim.assigned_to_doctor r) as [d |] eqn:E.
  - apply existsb_exists. exists d. split.
    + apply group_keys_In. now exists r.
    + now apply in_group_key.
  - destruct (existsb _ _) eqn:X; [| reflexivity].
    apply existsb_exists in X. destruct X as [k [_ G]].
    apply in_group_key in G. congruence.
Qed.

(** X12.  The detail tables together list each row of the frame that names
    a doctor exactly once, under that doctor, and list nothing else; a row
    whose doctor is blank is in the frame (and in the preview) but in no
    detail table. *)
Theorem X12_groups_partition_the_rows_with_a_doctor (df : list Claim.row) :
  (forall k g, In (k, g) (groupby df) ->
     g <> [] /\ forall r, In r g <->
                          In r df /\ Claim.assigned_to_doctor r = Some k)
  /\ (forall r, In r (flat_map snd (groupby df)) <->
                In r df /\ Claim.assigned_to_doctor r <> None)
  /\ List.length (flat_map snd (groupby df))
     = List.length (filter has_doctor df).
Proof.
  assert (G : forall k r, In r (filter (in_group k) df) <->
                          In r df /\ Claim.assigned_to_doctor r = Some k).
  { intros k r. now rewrite filter_In, in_group_key. }
  split; [| split].
  - intros k g H. unfold groupby in H. apply in_map_iff in H.
    destruct H as [k' [E Hk]]. inversion E; subst; clear E.
    split; [| apply G].
    apply group_keys_In in Hk. destruct Hk as [r Hr].
    intro N. apply (proj2 (G k r)) in Hr. rewrite N in Hr. contradiction.
  - intro r. rewrite in_flat_map. split.
    + intros [[k g] [H Hr]]. unfold groupby in H. apply in_map_iff in H.
      destruct H as [k' [E _]]. inversion E; subst; clear E. cbn [snd] in Hr.
      apply G in Hr. destruct Hr as [Hin Hd]. split; [exact Hin | congruence].
    + intros [Hin Hd].
      destruct (Claim.assigned_to_doctor r) as [k |] eqn:E; [| congruence].
      exists (k, filter (in_group k) df). split.
      * unfold groupby. apply in_map_iff. exists k. split; [reflexivity |].
        apply group_keys_In. now exists r.
      * cbn [snd]. now apply G.
  - unfold groupby. rewrite flat_map_concat_map, map_map. cbn [snd].
    rewrite <- flat_map_concat_map.
    rewrite (groups_length _ _ (group_keys_sorted df)).
    f_equal. apply filter_ext_in. apply in_groups_keys.
Qed.

(** ** Bounds on the summary counts *)

Lemma filter_length_split {A : Type} (p : A -> bool) (l : list A) :
  (List.length (filter p l)
   + List.length (filter (fun x => negb (p x)) l))%nat
  = List.length l.
Proof.
  induction l as [| x l IH]; [reflexivity |].
  cbn [filter]. destruct (p x); cbn [negb List.length]; lia.
Qed.

Lemma filter_notna_map {A B : Type} (h : A -> option B) (l : list A) :
  List.length (filter notna (map h l))
  = List.length (filter (fun x => notna (h x)) l).
Proof.
  induction l as [| x l IH]; [reflexivity |].
  cbn [map filter]. destruct (notna (h x)); cbn [List.length]; now rewrite IH.
Qed.

(** X13.  Every row of the summary frame stands for a doctor with at least
    one claim in the frame.  With [n] the number of claims of that doctor,
    [overdue_claims] is the number of them whose day count exceeds the
    threshold, [total_claims] is [n] less the number of them whose claim id
    is blank, and both lie between 0 and [n]. *)
Theorem X13_summary_counts_are_bounded_by_the_group
    (pending_threshold : Z) (df : list Claim.row) (s : Summary.row) :
  In s (aggregate pending_threshold df) ->
  let g := filter (in_group (Summary.assigned_to_doctor s)) df in
  let n := Z.of_nat (List.length g) in
  1 <= n
  /\ Summary.overdue_claims s
     = Z.of_nat (List.length
         (filter (fun r => gt (Claim.days_since_updated r) pending_threshold)
                 g))
  /\ Summary.total_claims s
     = n - Z.of_nat (List.length
             (filter (fun r => negb (notna (Claim.claim_id r))) g))
  /\ 0 <= Summary.overdue_claims s <= n
  /\ 0 <= Summary.total_claims s <= n.
Proof.
  intros Hs g n.
  destruct (aggregate_row_counts _ _ _ Hs) as [Ht [Ho _]].
  fold g in Ht, Ho.
  assert (Hn : 1 <= n).
  { assert (K : In (Summary.assigned_to_doctor s) (group_keys df)).
    { rewrite <- (aggregate_doctors pending_threshold df). now apply in_map. }
    apply group_keys_In in K. destruct K as [r [Hin E]].
    assert (Hg : In r g).
    { apply filter_In. split; [exact Hin | now apply in_group_key]. }
    unfold n. destruct g; [contradiction | cbn [List.length]; lia]. }
  assert (Ht' : Summary.total_claims s
                = n - Z.of_nat (List.length
                        (filter (fun r => negb (notna (Claim.claim_id r))) g))).
  { rewrite Ht. unfold count, n. rewrite filter_notna_map.
    pose proof (filter_length_split
                  (fun r => notna (Claim.claim_id r)) g). lia. }
  pose proof (filter_length_le
                (fun r => gt (Claim.days_since_updated r) pending_threshold) g).
  pose proof (filter_length_le
                (fun r => negb (notna (Claim.claim_id r))) g).
  split; [exact Hn |]. split; [exact Ho |]. split; [exact Ht' |].
  unfold n in *. split; lia.
Qed.

(** A witness of X13: a doctor with two claims, one overdue, one without
    id. *)
Lemma X13_witness :
  let df := [Claim.mk (Some "Dr. A") None (Some 40);
             Claim.mk (Some "Dr. A") (Some (IdNum 2)) (Some 5)] in
  let s := Summary.mk "Dr. A" 1 1 in
  0 <= Summary.total_claims s
       <= Z.of_nat (List.length
                      (filter (in_group (Summary.assigned_to_doctor s)) df)).
Proof.
  intros df s.
  exact (proj2 (proj2 (proj2 (proj2
           (X13_summary_counts_are_bounded_by_the_group 30 df s
              (or_introl eq_refl)))))).
Defined.

(** ** The overdue boundary, over whole groups *)



